(** * Assistência Técnica dashboard (src/app.py): column detection,
      normalisation, filtering, charts and CSV export.

    The script is a single linear Streamlit program over a pandas DataFrame.
    The development follows it section by section: Python strings, cells and
    frames first, then the loader, the column classifier, the normaliser, the
    filters, the temporal chart and the export, and finally the statements
    about them. *)

From Stdlib Require Import List Bool Arith NArith ZArith Lia Ascii String Sorted.
Import ListNotations.

(** ** Python [str]: a sequence of Unicode code points *)

Module PyStr.

Definition pystr := list N.

(** Source literals are written as UTF-8 text and decoded to code points. *)
Fixpoint utf8_decode (bs : list N) : pystr :=
  match bs with
  | [] => []
  | b0 :: t =>
      if (b0 <? 128)%N then b0 :: utf8_decode t
      else if (b0 <? 224)%N then
        match t with
        | b1 :: t1 => ((b0 - 192) * 64 + (b1 - 128))%N :: utf8_decode t1
        | _ => []
        end
      else if (b0 <? 240)%N then
        match t with
        | b1 :: b2 :: t2 =>
            ((b0 - 224) * 4096 + (b1 - 128) * 64 + (b2 - 128))%N :: utf8_decode t2
        | _ => []
        end
      else
        match t with
        | b1 :: b2 :: b3 :: t3 =>
            ((b0 - 240) * 262144 + (b1 - 128) * 4096 + (b2 - 128) * 64 + (b3 - 128))%N
              :: utf8_decode t3
        | _ => []
        end
  end.

Definition u (s : string) : pystr :=
  utf8_decode (map N_of_ascii (list_ascii_of_string s)).

(** [str.encode('utf-8')]. *)
Definition utf8_encode_cp (c : N) : list N :=
  if (c <? 128)%N then [c]
  else if (c <? 2048)%N then [192 + c / 64; 128 + c mod 64]%N
  else if (c <? 65536)%N then
    [224 + c / 4096; 128 + (c / 64) mod 64; 128 + c mod 64]%N
  else
    [240 + c / 262144; 128 + (c / 4096) mod 64; 128 + (c / 64) mod 64;
     128 + c mod 64]%N.

Definition utf8_encode (s : pystr) : list N := flat_map utf8_encode_cp s.

Definition eqb (a b : pystr) : bool :=
  if list_eq_dec N.eq_dec a b then true else false.

(** Truthiness of a string: [if s:] holds for the non-empty ones. *)
Definition truthy (s : pystr) : bool :=
  match s with [] => false | _ => true end.

(** [str.isspace] on one code point. *)
Definition is_space (c : N) : bool :=
  ((9 <=? c) && (c <=? 13) || (28 <=? c) && (c <=? 32) || (c =? 133)
   || (c =? 160) || (c =? 5760) || (8192 <=? c) && (c <=? 8202)
   || (c =? 8232) || (c =? 8233) || (c =? 8239) || (c =? 8287)
   || (c =? 12288))%N.

Fixpoint lstrip (s : pystr) : pystr :=
  match s with
  | c :: t => if is_space c then lstrip t else s
  | [] => []
  end.

(** [str.strip()]: white space removed at both ends. *)
Definition strip (s : pystr) : pystr := rev (lstrip (rev (lstrip s))).

(** [str.lower()] on one code point, for ASCII and the Latin-1 letters
    (U+00C0 to U+00DE without the multiplication sign); the accented letters
    of Portuguese all fall in this range. Other code points are kept. The
    script's own literals (keywords, status names of the colour table) are
    matched with it; the text typed in the search box and the text of the
    cells go through the library's [str_lower]. *)
Definition lower_cp (c : N) : N :=
  if ((65 <=? c) && (c <=? 90))%N then (c + 32)%N
  else if ((192 <=? c) && (c <=? 222) && negb (c =? 215))%N then (c + 32)%N
  else c.

Definition lower (s : pystr) : pystr := map lower_cp s.

(** [s.replace(a, b)] for one-character [a] and [b]. *)
Definition replace (a b : N) (s : pystr) : pystr :=
  map (fun c => if (c =? a)%N then b else c) s.

Fixpoint startswith (p s : pystr) : bool :=
  match p, s with
  | [], _ => true
  | a :: p', b :: s' => (a =? b)%N && startswith p' s'
  | _ :: _, [] => false
  end.

(** [p in s]: [p] occurs as a contiguous run of [s]. *)
Fixpoint contains (p s : pystr) : bool :=
  startswith p s ||
  match s with
  | [] => false
  | _ :: s' => contains p s'
  end.

Definition endswith (p s : pystr) : bool := startswith (rev p) (rev s).

Definition isin (s : pystr) (l : list pystr) : bool := existsb (eqb s) l.

(** Order of [sorted] on strings: lexicographic on code points. *)
Fixpoint leb (a b : pystr) : bool :=
  match a, b with
  | [], _ => true
  | _ :: _, [] => false
  | x :: a', y :: b' => (x <? y)%N || (x =? y)%N && leb a' b'
  end.

Fixpoint insert_sorted (x : pystr) (l : list pystr) : list pystr :=
  match l with
  | [] => [x]
  | y :: t => if leb x y then x :: l else y :: insert_sorted x t
  end.

Definition sorted (l : list pystr) : list pystr :=
  fold_right insert_sorted [] l.

(** [Series.unique()]: the distinct values, in order of first appearance. *)
Fixpoint unique (l : list pystr) : list pystr :=
  match l with
  | [] => []
  | x :: t => x :: filter (fun y => negb (eqb x y)) (unique t)
  end.

End PyStr.

Import PyStr.

(** ** Cells, rows and frames *)

(** A pandas timestamp: nanoseconds on the wall clock since the epoch, and
    whether the value carries a time zone. *)
Record Timestamp := mkTimestamp { ts_ns : Z; ts_aware : bool }.

(** A cell of the table. A number is carried by its printed form, the only
    thing the script ever asks of it. *)
Inductive cell :=
| CStr (s : pystr)
| CNum (repr : pystr)
| CTime (t : Timestamp)
| CNaN
| CNaT.

Definition isna (c : cell) : bool :=
  match c with CNaN | CNaT => true | _ => false end.

(** A row maps column names to cells; a name that is absent reads as missing. *)
Definition Row := list (pystr * cell).

Fixpoint get (r : Row) (col : pystr) : cell :=
  match r with
  | [] => CNaN
  | (k, v) :: t => if eqb k col then v else get t col
  end.

(** Assignment to one cell of a row: in place when the column exists, at the
    end otherwise. *)
Fixpoint set (r : Row) (col : pystr) (v : cell) : Row :=
  match r with
  | [] => [(col, v)]
  | (k, w) :: t => if eqb k col then (k, v) :: t else (k, w) :: set t col v
  end.

Record DataFrame := mkDF { columns : list pystr; rows : list Row }.

(** [df[col]] *)
Definition column (df : DataFrame) (col : pystr) : list cell :=
  map (fun r => get r col) (rows df).

(** [df[col] = values], the values computed row by row from the frame as it
    was before the assignment. *)
Definition set_column (df : DataFrame) (col : pystr) (f : Row -> cell) : DataFrame :=
  {| columns := if isin col (columns df) then columns df else columns df ++ [col];
     rows := map (fun r => set r col (f r)) (rows df) |}.

(** [df[mask]], the mask given row by row. *)
Definition select (keep : Row -> bool) (df : DataFrame) : DataFrame :=
  {| columns := columns df; rows := filter keep (rows df) |}.

(** [df.empty] *)
Definition empty (df : DataFrame) : bool :=
  match columns df, rows df with
  | _ :: _, _ :: _ => false
  | _, _ => true
  end.

(** [df.dropna(axis=1, how='all')]: a column stays when some row has a value
    in it. *)
Definition dropna_columns (df : DataFrame) : DataFrame :=
  let kept := filter (fun c => existsb (fun r => negb (isna (get r c))) (rows df))
                     (columns df) in
  {| columns := kept;
     rows := map (filter (fun kv : pystr * cell => isin (fst kv) kept)) (rows df) |}.

(** [df.dropna(subset=[col])] *)
Definition dropna_subset (col : pystr) (df : DataFrame) : DataFrame :=
  select (fun r => negb (isna (get r col))) df.

(** [Series.fillna(v)] on one cell. *)
Definition fillna (v : pystr) (c : cell) : cell :=
  if isna c then CStr v else c.

(** [Series.isin(values)] on one cell, the values being strings. *)
Definition cell_isin (c : cell) (values : list pystr) : bool :=
  match c with
  | CStr s => isin s values
  | _ => false
  end.

(** The strings of a column (the derived columns hold strings only). *)
Definition strings_of (cs : list cell) : list pystr :=
  flat_map (fun c => match c with CStr s => [s] | _ => [] end) cs.

(** ** What the script asks of pandas, of [re] and of the upload

    These are the library calls whose result the script only passes on. *)

Record Upload := mkUpload { name : pystr; content : list N }.

Class Bibliotecas := {
  (** [pd.to_datetime(column, errors='coerce', dayfirst=...)]: the library
      looks at the whole column, then either raises ([None]) or converts cell
      by cell, [None] for a cell standing for [NaT]. *)
  to_datetime : bool -> list cell -> option (cell -> option Timestamp);
  (** [re.compile(pattern)], as [Series.str.contains] calls it with its
      default [regex=True]: [None] is [re.error], otherwise the search. *)
  re_compile : pystr -> option (pystr -> bool);
  (** [str] of a timestamp, as [Series.astype(str)] prints it in a column
      that [fillna] has made of objects. *)
  str_timestamp : Timestamp -> pystr;
  (** The text [DataFrame.astype(str)] gives a timestamp of column [col] of
      [df]: pandas chooses the format from the type and from all the values
      of the column. *)
  str_datetime : DataFrame -> pystr -> Timestamp -> pystr;
  (** [str.lower]: Python lower-cases with the full Unicode tables, and not
      character by character. Up to U+00FF it is [lower]. *)
  str_lower : pystr -> pystr;
  str_lower_latin1 :
    forall s, forallb (fun c => (c <? 256)%N) s = true -> str_lower s = lower s;
  (** [pd.read_csv(file, encoding=...)] and [pd.read_excel(file)]: [None] when
      the call raises. *)
  read_csv : pystr -> Upload -> option DataFrame;
  read_excel : Upload -> option DataFrame;
  (** [DataFrame.to_csv(index=False)] *)
  to_csv : DataFrame -> pystr
}.

(** The characters that [re] reads as operators. *)
Definition re_special (c : N) : bool :=
  existsb (N.eqb c) (u ".^$*+?{}[]\|()").

(** A pattern without operators searches for itself. *)
Definition re_literal_law `{Bibliotecas} : Prop :=
  forall p, existsb re_special p = false ->
    exists m, re_compile p = Some m /\ forall s, m s = contains p s.

(** ** The script *)

(** The errors and warnings of the page, with what [st.info] and [st.write]
    show before a [st.stop()]. *)
Inductive mensagem :=
| ComoUsar                                 (* st.info, nothing uploaded yet *)
| ErroCarregarArquivo                      (* st.error, carregar_dados *)
| ErroSemDados                             (* st.error, empty frame *)
| ErroSemColunaStatus                      (* st.error, no status column *)
| ColunasDisponiveis (cols : list pystr)   (* st.write, the column names *)
| AvisoData                                (* st.sidebar.warning, date filter *)
| AvisoSemRegistros.                       (* st.warning, no record left *)

(** The options of the period select box. *)
Inductive Periodo :=
| TodoPeriodo | Ultimos7 | Ultimos15 | Ultimos30 | Ultimos90.

(** The notes at the foot of the sidebar and the one under the department
    heading. *)
Inductive nota :=
| SemColunaDepartamento            (* st.sidebar.info, no department column *)
| RegistrosFiltrados (n : nat)     (* st.sidebar.success, len(df_filtrado) *)
| ResumoFiltros (n_status : nat) (n_departamentos : option nat) (p : Periodo).
                                   (* st.sidebar.info, the summary *)

(** The state of the sidebar widgets on one run of the script. *)
Record Widgets := mkWidgets {
  dept_todos : bool;               (* check box, key "dept_todos" *)
  dept_multiselect : list pystr;
  status_todos : bool;             (* check box, key "status_todos" *)
  status_multiselect : list pystr;
  periodo_selectbox : Periodo;
  busca : pystr
}.

(** [if x:] for a column that may be [None]. *)
Definition verdadeiro (o : option pystr) : bool :=
  match o with Some c => truthy c | None => false end.

Definition status_normalizado : pystr := u "status_normalizado".
Definition departamento_normalizado : pystr := u "departamento_normalizado".
Definition data_convertida : pystr := u "data_convertida".

(** *** Column classifier *)

(** The loop over [df.columns] with its [break]: the first column one of
    whose keywords occurs in the normalised name. *)
Definition identificar (normaliza : pystr -> pystr) (keywords : list pystr)
    (cols : list pystr) : option pystr :=
  find (fun col => existsb (fun keyword => contains keyword (normaliza col)) keywords)
       cols.

(** [str(col).strip().lower().replace('ç', 'c').replace('ã', 'a').replace('õ', 'o')];
    the code points of ç, ã and õ are 231, 227 and 245. *)
Definition sem_acentos (col : pystr) : pystr :=
  replace 245 111 (replace 227 97 (replace 231 99 (lower (strip col)))).

Definition keywords_status : list pystr :=
  [u "status"; u "situacao"; u "situacão"; u "estado"].

Definition keywords_departamento : list pystr :=
  [u "departamento"; u "setor"; u "area"; u "área"; u "dept"; u "unidade";
   u "equipe"; u "time"].

Definition keywords_data : list pystr :=
  [u "data"; u "dt_"; u "abertura"; u "entrada"; u "registro"; u "entrada"].

Definition col_status (cols : list pystr) : option pystr :=
  identificar sem_acentos keywords_status cols.

Definition col_departamento (cols : list pystr) : option pystr :=
  identificar sem_acentos keywords_departamento cols.

Definition col_data (cols : list pystr) : option pystr :=
  identificar (fun col => lower (strip col)) keywords_data cols.

(** *** Counts *)

Section Grupos.

Context {K : Type}.
Variable keq : K -> K -> bool.
Variable kle : K -> K -> bool.

(** The distinct keys, in order of first appearance. *)
Fixpoint distintos_por (l : list K) : list K :=
  match l with
  | [] => []
  | x :: t => x :: filter (fun y => negb (keq x y)) (distintos_por t)
  end.

Fixpoint inserir (x : K) (l : list K) : list K :=
  match l with
  | [] => [x]
  | y :: t => if kle x y then x :: l else y :: inserir x t
  end.

Definition ordenar (l : list K) : list K := fold_right inserir [] l.

(** [groupby(keys).size()] and [value_counts().sort_index()]: one entry per
    distinct key, in ascending order of the keys, with the number of rows
    that have the key. *)
Definition tamanhos (l : list K) : list (K * nat) :=
  map (fun k => (k, List.length (filter (keq k) l))) (ordenar (distintos_por l)).

End Grupos.

(** [df[col].value_counts().sort_index()] for a derived column. *)
Definition contagem (df : DataFrame) (col : pystr) : list (pystr * nat) :=
  tamanhos eqb leb (strings_of (column df col)).

Definition contagem_status (df_filtrado : DataFrame) : list (pystr * nat) :=
  contagem df_filtrado status_normalizado.

Definition contagem_dept (df_filtrado : DataFrame) : list (pystr * nat) :=
  contagem df_filtrado departamento_normalizado.

Section Script.

Context `{Bibliotecas}.

(** *** Loader *)

Definition encodings : list pystr := [u "utf-8"; u "latin1"; u "iso-8859-1"].

(** The loop over the encodings: the first one that reads without raising.
    (Every attempt is given the same upload.) *)
Fixpoint tentar_csv (encs : list pystr) (file : Upload) : option DataFrame :=
  match encs with
  | [] => None
  | encoding :: rest =>
      match read_csv encoding file with
      | Some df => Some df
      | None => tentar_csv rest file
      end
  end.

(** [carregar_dados]: the frame without its all-empty columns, or the error
    message and [None] when reading raised. *)
Definition carregar_dados (file : Upload) : list mensagem * option DataFrame :=
  let lido := if endswith (u ".csv") (name file)
              then tentar_csv encodings file
              else read_excel file in
  match lido with
  | Some df => ([], Some (dropna_columns df))
  | None => ([ErroCarregarArquivo], None)
  end.

(** *** Normaliser *)

(** [astype(str)] on one cell. *)
Definition astype_str (c : cell) : pystr :=
  match c with
  | CStr s => s
  | CNum repr => repr
  | CTime t => str_timestamp t
  | CNaN => u "nan"
  | CNaT => u "NaT"
  end.

(** [df[col].fillna(v).astype(str).str.strip()] on one row. *)
Definition normalizado (v : pystr) (col : pystr) (r : Row) : cell :=
  CStr (strip (astype_str (fillna v (get r col)))).

(** The distinct values of a derived column, without the empty ones and
    without ["nan"], sorted. *)
Definition todos (df : DataFrame) (col : pystr) : list pystr :=
  sorted (filter (fun s => truthy s && negb (eqb s (u "nan")) && negb (eqb s []))
                 (unique (strings_of (column df col)))).

Definition com_status (cs : pystr) (df : DataFrame) : DataFrame :=
  set_column df status_normalizado (normalizado [] cs).

Definition com_departamento (cd : option pystr) (df : DataFrame) : DataFrame :=
  if verdadeiro cd then
    match cd with
    | Some c => set_column df departamento_normalizado
                           (normalizado (u "Não especificado") c)
    | None => df
    end
  else set_column df departamento_normalizado (fun _ => CStr (u "Todos")).

Definition todos_status (df : DataFrame) : list pystr :=
  todos df status_normalizado.

Definition todos_departamentos (cd : option pystr) (df : DataFrame) : list pystr :=
  if verdadeiro cd then todos df departamento_normalizado else [].

(** *** Sidebar *)

Definition dept_selecionados (cd : option pystr) (w : Widgets) (df : DataFrame)
    : list pystr :=
  if verdadeiro cd then
    if dept_todos w then todos_departamentos cd df else dept_multiselect w
  else todos_departamentos cd df.

Definition status_selecionados (w : Widgets) (df : DataFrame) : list pystr :=
  if status_todos w then todos_status df else status_multiselect w.

Definition periodo (cdata : option pystr) (w : Widgets) : Periodo :=
  if verdadeiro cdata then periodo_selectbox w else TodoPeriodo.

(** *** Filters *)

Definition nao_vazia (l : list pystr) : bool :=
  match l with [] => false | _ => true end.

Definition filtro_departamento (cd : option pystr) (selecionados : list pystr)
    (df : DataFrame) : DataFrame :=
  if verdadeiro cd && nao_vazia selecionados
  then select (fun r => cell_isin (get r departamento_normalizado) selecionados) df
  else df.

Definition filtro_status (selecionados : list pystr) (df : DataFrame) : DataFrame :=
  if nao_vazia selecionados
  then select (fun r => cell_isin (get r status_normalizado) selecionados) df
  else df.

Definition dias_map (p : Periodo) : option Z :=
  match p with
  | TodoPeriodo => None
  | Ultimos7 => Some 7%Z
  | Ultimos15 => Some 15%Z
  | Ultimos30 => Some 30%Z
  | Ultimos90 => Some 90%Z
  end.

Definition ns_por_dia : Z := 86400000000000.

(** [datetime.now() - timedelta(days=dias_qtd)], the clock in nanoseconds. *)
Definition data_limite (agora dias_qtd : Z) : Z := (agora - dias_qtd * ns_por_dia)%Z.

Definition cell_of_timestamp (o : option Timestamp) : cell :=
  match o with Some t => CTime t | None => CNaT end.

(** [column >= data_limite] against the naive [datetime.now()] raises when
    the column carries a time zone. *)
Definition compara_raises (cs : list cell) : bool :=
  existsb (fun c => match c with CTime t => ts_aware t | _ => false end) cs.

Definition desde (limite : Z) (c : cell) : bool :=
  match c with
  | CTime t => (limite <=? ts_ns t)%Z
  | _ => false
  end.

(** The body of the [try], statement by statement; the [except] shows the
    warning and keeps the frame as the last assignment left it. *)
Definition filtro_periodo (cdata : option pystr) (p : Periodo) (agora : Z)
    (df : DataFrame) : list mensagem * DataFrame :=
  match cdata, dias_map p with
  | Some c, Some dias_qtd =>
      if truthy c then
        match to_datetime true (column df c) with
        | None => ([AvisoData], df)
        | Some converte =>
            let df1 := set_column df data_convertida
                         (fun r => cell_of_timestamp (converte (get r c))) in
            let df2 := dropna_subset data_convertida df1 in
            if compara_raises (column df2 data_convertida)
            then ([AvisoData], df2)
            else ([], select (fun r => desde (data_limite agora dias_qtd)
                                             (get r data_convertida)) df2)
        end
      else ([], df)
  | _, _ => ([], df)
  end.

(** [df.astype(str)] on one cell of column [col] of [df]. *)
Definition astype_str_em (df : DataFrame) (col : pystr) (c : cell) : pystr :=
  match c with
  | CTime t => str_datetime df col t
  | _ => astype_str c
  end.

(** [row.str.lower()] on one cell of a row of [df.astype(str)]. *)
Definition texto_em (df : DataFrame) (kv : pystr * cell) : pystr :=
  str_lower (astype_str_em df (fst kv) (snd kv)).

(** The free-text filter: [None] when compiling the pattern raises, which
    nothing catches. An empty frame never reaches the pattern. *)
Definition filtro_busca (q : pystr) (df : DataFrame) : option DataFrame :=
  if truthy q then
    match rows df with
    | [] => Some df
    | _ :: _ =>
        match re_compile (str_lower q) with
        | None => None
        | Some search =>
            Some (select (fun r => existsb (fun kv => search (texto_em df kv)) r) df)
        end
    end
  else Some df.

(** [df_filtrado] after the four filters, with what the sidebar showed. *)
Definition aplicar_filtros (cd cdata : option pystr) (depts sts : list pystr)
    (p : Periodo) (q : pystr) (agora : Z) (df : DataFrame)
    : option (list mensagem * DataFrame) :=
  let d1 := filtro_departamento cd depts df in
  let d2 := filtro_status sts d1 in
  let '(avisos, d3) := filtro_periodo cdata p agora d2 in
  match filtro_busca q d3 with
  | Some d4 => Some (avisos, d4)
  | None => None
  end.

(** *** Temporal chart *)

(** [.dt.date] is there for a datetime column only; anything else raises.
    A column of timestamps that pandas keeps as objects (mixed UTC offsets)
    is not told apart from a datetime column. *)
Definition dt_date (cs : list cell) : option (list (option Z)) :=
  if forallb (fun c => match c with CTime _ | CNaT => true | _ => false end) cs
  then Some (map (fun c => match c with
                           | CTime t => Some (ts_ns t / ns_por_dia)%Z
                           | _ => None
                           end) cs)
  else None.

(** The key of a row in [groupby(['data_apenas', 'status_normalizado'])]; a
    row with a missing key is in no group. *)
Definition grupo (r : Row) : option (Z * pystr) :=
  match get r data_convertida, get r status_normalizado with
  | CTime t, CStr s => Some ((ts_ns t / ns_por_dia)%Z, s)
  | _, _ => None
  end.

Definition grupo_eqb (a b : Z * pystr) : bool :=
  (fst a =? fst b)%Z && eqb (snd a) (snd b).

Fixpoint distintos (l : list (Z * pystr)) : list (Z * pystr) :=
  match l with
  | [] => []
  | x :: t => x :: filter (fun y => negb (grupo_eqb x y)) (distintos t)
  end.

(** [df_evolucao]: one line per (date, status) pair that occurs. *)
Definition df_evolucao (df : DataFrame) : list (Z * pystr) :=
  distintos (flat_map (fun r => match grupo r with Some g => [g] | None => [] end)
                      (rows df)).

(** Whether the line chart is drawn; [None] when [.dt] raises. *)
Definition grafico_temporal (cdata : option pystr) (df_filtrado : DataFrame)
    : option bool :=
  if verdadeiro cdata && isin data_convertida (columns df_filtrado)
     && negb (Nat.eqb (List.length (rows df_filtrado)) 0)
  then match dt_date (column df_filtrado data_convertida) with
       | None => None
       | Some _ => Some (1 <? List.length (df_evolucao df_filtrado))
       end
  else Some false.

(** *** Export *)

(** [df_filtrado.to_csv(index=False).encode('utf-8-sig')], under the file
    name of the download button; [carimbo] is the formatted clock. *)
Definition exportar (carimbo : pystr) (df_filtrado : DataFrame) : Upload :=
  {| name := u "assistencia_" ++ carimbo ++ u ".csv";
     content := [239; 187; 191]%N ++ utf8_encode (to_csv df_filtrado) |}.

(** *** The whole run *)

Record Painel := mkPainel {
  mensagens : list mensagem;
  df_filtrado : DataFrame;
  temporal : bool;
  csv : Upload;
  sidebar : list nota
}.

(** [Excecao] stands for what the free-text filter and [.dt] of the temporal
    chart raise; what the drawing calls (plotly, [Styler]) may raise is not
    followed. *)
Inductive Resultado :=
| Parou (ms : list mensagem)      (* st.stop() after the messages *)
| Excecao                         (* an exception nothing catches *)
| Renderizou (p : Painel).

(** The notes of the sidebar on a page that reaches its last line. *)
Definition notas (cd : option pystr) (depts sts : list pystr) (p : Periodo)
    (filtrado : DataFrame) : list nota :=
  (if verdadeiro cd then [] else [SemColunaDepartamento])
  ++ [RegistrosFiltrados (List.length (rows filtrado));
      ResumoFiltros (List.length sts)
                    (if verdadeiro cd && nao_vazia depts
                     then Some (List.length depts) else None)
                    p].

Definition dashboard (uploaded_file : Upload) (w : Widgets) (agora : Z)
    (carimbo : pystr) : Resultado :=
  let '(erros, carregado) := carregar_dados uploaded_file in
  match carregado with
  | None => Parou (erros ++ [ErroSemDados])
  | Some df =>
      if empty df then Parou (erros ++ [ErroSemDados])
      else
        match col_status (columns df) with
        | None => Parou [ErroSemColunaStatus; ColunasDisponiveis (columns df)]
        | Some cs =>
            if negb (truthy cs)
            then Parou [ErroSemColunaStatus; ColunasDisponiveis (columns df)]
            else
              let cd := col_departamento (columns df) in
              let cdata := col_data (columns df) in
              let df_s := com_status cs df in
              let df_n := com_departamento cd df_s in
              let depts := dept_selecionados cd w df_n in
              let sts := status_selecionados w df_s in
              match aplicar_filtros cd cdata depts sts (periodo cdata w) (busca w)
                                    agora df_n with
              | None => Excecao
              | Some (avisos, filtrado) =>
                  let cards := match contagem_status filtrado with
                               | [] => [AvisoSemRegistros]
                               | _ :: _ => []
                               end in
                  match grafico_temporal cdata filtrado with
                  | None => Excecao
                  | Some grafico =>
                      Renderizou {| mensagens := avisos ++ cards;
                                    df_filtrado := filtrado;
                                    temporal := grafico;
                                    csv := exportar carimbo filtrado;
                                    sidebar := notas cd depts sts (periodo cdata w)
                                                     filtrado |}
                  end
              end
        end
  end.

(** The script from its first line: without an upload it shows how to use
    the page and stops. *)
Definition app (uploaded_file : option Upload) (w : Widgets) (agora : Z)
    (carimbo : pystr) : Resultado :=
  match uploaded_file with
  | None => Parou [ComoUsar]
  | Some file => dashboard file w agora carimbo
  end.

End Script.

(** ** A reference instance of the libraries

    Enough of pandas and [re] to run the script on the tables of the
    scenarios: dates written day/month/year or as ISO instants in UTC,
    patterns made of plain characters and [.], comma-separated text without
    quoting. *)

Module Referencia.

Fixpoint split_on (sep : N) (s : pystr) : list pystr :=
  match s with
  | [] => [[]]
  | c :: t =>
      if (c =? sep)%N then [] :: split_on sep t
      else match split_on sep t with
           | w :: ws => (c :: w) :: ws
           | [] => [[c]]
           end
  end.

Fixpoint join (sep : N) (l : list pystr) : pystr :=
  match l with
  | [] => []
  | [w] => w
  | w :: ws => w ++ sep :: join sep ws
  end.

Definition is_digit (c : N) : bool := ((48 <=? c) && (c <=? 57))%N.

(** [int(s)] for a non-empty run of digits. *)
Definition to_int (s : pystr) : option Z :=
  match s with
  | [] => None
  | _ => if forallb is_digit s
         then Some (fold_left (fun acc c => (acc * 10 + (Z.of_N c - 48))%Z) s 0%Z)
         else None
  end.

Definition bissexto (y : Z) : bool :=
  ((y mod 4 =? 0) && (negb (y mod 100 =? 0) || (y mod 400 =? 0)))%Z.

Definition dias_no_mes (y m : Z) : Z :=
  if (m =? 2)%Z then (if bissexto y then 29 else 28)%Z
  else if ((m =? 4) || (m =? 6) || (m =? 9) || (m =? 11))%Z then 30%Z
  else 31%Z.

(** Days from 1970-01-01 to the given day of the Gregorian calendar. *)
Definition days_from_civil (y m d : Z) : Z :=
  let y' := (if m <=? 2 then y - 1 else y)%Z in
  let era := (y' / 400)%Z in
  let yoe := (y' - era * 400)%Z in
  let mp := (if 2 <? m then m - 3 else m + 9)%Z in
  let doy := ((153 * mp + 2) / 5 + d - 1)%Z in
  let doe := (yoe * 365 + yoe / 4 - yoe / 100 + doy)%Z in
  (era * 146097 + doe - 719468)%Z.

Definition data_civil (y m d : Z) : option Z :=
  if ((1 <=? m) && (m <=? 12) && (1 <=? d) && (d <=? dias_no_mes y m))%Z
  then Some (days_from_civil y m d)
  else None.

(** Two numbers and a year between slashes; [dayfirst] says which of the
    two is the day. *)
Definition parse_barras (dayfirst : bool) (s : pystr) : option Timestamp :=
  match map to_int (split_on 47 s) with
  | [Some a; Some b; Some y] =>
      match (if dayfirst then data_civil y b a else data_civil y a b) with
      | Some dias => Some {| ts_ns := (dias * ns_por_dia)%Z; ts_aware := false |}
      | None => None
      end
  | _ => None
  end.

(** [YYYY-MM-DDTHH:MM:SSZ], an instant in UTC. *)
Definition parse_iso_utc (s : pystr) : option Timestamp :=
  match split_on 84 s with
  | [data; hora] =>
      match map to_int (split_on 45 data), split_on 90 hora with
      | [Some y; Some m; Some d], [relogio; []] =>
          match map to_int (split_on 58 relogio), data_civil y m d with
          | [Some hh; Some mm; Some ss], Some dias =>
              if ((hh <? 24) && (mm <? 60) && (ss <? 60))%Z
              then Some {| ts_ns := (dias * ns_por_dia
                                     + (hh * 3600 + mm * 60 + ss) * 1000000000)%Z;
                           ts_aware := true |}
              else None
          | _, _ => None
          end
      | _, _ => None
      end
  | _ => None
  end.

Definition parse_cell (parse : pystr -> option Timestamp) (c : cell)
    : option Timestamp :=
  match c with
  | CStr s => parse s
  | CTime t => Some t
  | _ => None
  end.

(** The layout is taken from the first value of the column that has one and
    then used for every cell. *)
Definition to_datetime_ref (dayfirst : bool) (cs : list cell)
    : option (cell -> option Timestamp) :=
  match find (fun c => negb (isna c)) cs with
  | Some (CStr s) =>
      match parse_iso_utc s with
      | Some _ => Some (parse_cell parse_iso_utc)
      | None => Some (parse_cell (parse_barras dayfirst))
      end
  | _ => Some (parse_cell (parse_barras dayfirst))
  end.

(** Patterns of plain characters and [.]; any other operator is refused. *)
Inductive re_item := Lit (c : N) | Dot.

Fixpoint re_parse (p : pystr) : option (list re_item) :=
  match p with
  | [] => Some []
  | c :: t =>
      match re_parse t with
      | None => None
      | Some items =>
          if (c =? 46)%N then Some (Dot :: items)
          else if re_special c then None
          else Some (Lit c :: items)
      end
  end.

Fixpoint match_here (items : list re_item) (s : pystr) : bool :=
  match items, s with
  | [], _ => true
  | Lit c :: items', x :: s' => (c =? x)%N && match_here items' s'
  | Dot :: items', x :: s' => negb (x =? 10)%N && match_here items' s'
  | _ :: _, [] => false
  end.

Fixpoint re_search (items : list re_item) (s : pystr) : bool :=
  match_here items s ||
  match s with
  | [] => false
  | _ :: s' => re_search items s'
  end.

Definition re_compile_ref (p : pystr) : option (pystr -> bool) :=
  match re_parse p with
  | Some items => Some (re_search items)
  | None => None
  end.

(** The day of the Gregorian calendar, from the days since 1970-01-01. *)
Definition civil_from_days (dias : Z) : Z * Z * Z :=
  let z := (dias + 719468)%Z in
  let era := (z / 146097)%Z in
  let doe := (z - era * 146097)%Z in
  let yoe := ((doe - doe / 1460 + doe / 36524 - doe / 146096) / 365)%Z in
  let doy := (doe - (365 * yoe + yoe / 4 - yoe / 100))%Z in
  let mp := ((5 * doy + 2) / 153)%Z in
  let d := (doy - (153 * mp + 2) / 5 + 1)%Z in
  let m := (if mp <? 10 then mp + 3 else mp - 9)%Z in
  let y := (yoe + era * 400 + (if m <=? 2 then 1 else 0))%Z in
  (y, m, d).

(** The last [w] decimal digits of [z]. *)
Fixpoint digitos (w : nat) (z : Z) : pystr :=
  match w with
  | O => []
  | S w' => digitos w' (z / 10) ++ [Z.to_N (48 + z mod 10)]
  end.

(** [str(Timestamp)]: [YYYY-MM-DD HH:MM:SS], with the offset when aware. *)
Definition str_timestamp_ref (t : Timestamp) : pystr :=
  let '(y, m, d) := civil_from_days (ts_ns t / ns_por_dia) in
  let seg := ((ts_ns t mod ns_por_dia) / 1000000000)%Z in
  digitos 4 y ++ u "-" ++ digitos 2 m ++ u "-" ++ digitos 2 d ++ u " "
  ++ digitos 2 (seg / 3600) ++ u ":" ++ digitos 2 ((seg / 60) mod 60) ++ u ":"
  ++ digitos 2 (seg mod 60) ++ (if ts_aware t then u "+00:00" else []).

(** A column of naive timestamps that all fall on midnight is printed
    without the time of day, in [astype(str)] and in [to_csv] alike. *)
Definition so_datas (cs : list cell) : bool :=
  forallb (fun c => match c with
                    | CTime t => negb (ts_aware t) && (ts_ns t mod ns_por_dia =? 0)%Z
                    | CNaT => true
                    | _ => false
                    end) cs.

Definition str_date_ref (t : Timestamp) : pystr :=
  let '(y, m, d) := civil_from_days (ts_ns t / ns_por_dia) in
  digitos 4 y ++ u "-" ++ digitos 2 m ++ u "-" ++ digitos 2 d.

Definition str_datetime_ref (df : DataFrame) (col : pystr) (t : Timestamp) : pystr :=
  if so_datas (column df col) then str_date_ref t else str_timestamp_ref t.

(** One field of a line: a missing value is written as nothing. *)
Definition campo (df : DataFrame) (col : pystr) (c : cell) : pystr :=
  match c with
  | CStr s => s
  | CNum repr => repr
  | CTime t => str_datetime_ref df col t
  | CNaN | CNaT => []
  end.

Definition to_csv_ref (df : DataFrame) : pystr :=
  flat_map (fun linha => linha ++ [10%N])
    (join 44 (columns df)
     :: map (fun r => join 44 (map (fun c => campo df c (get r c)) (columns df)))
            (rows df)).

Definition celula (s : pystr) : cell :=
  match s with [] => CNaN | _ => CStr s end.

(** The reader settles the type of a column on all of its fields: when every
    field that is not empty is written with decimal digits only, the column
    holds numbers, integers when no field is empty and floats otherwise. *)
Definition inteiro (s : pystr) : bool := truthy s && forallb is_digit s.

Definition numerica (campos : list pystr) : bool :=
  existsb truthy campos && forallb (fun f => negb (truthy f) || inteiro f) campos.

Fixpoint sem_zeros (s : pystr) : pystr :=
  match s with
  | c :: t => if (c =? 48)%N && truthy t then sem_zeros t else s
  | [] => []
  end.

Definition ler_celula (campos : list pystr) (f : pystr) : cell :=
  if numerica campos then
    match f with
    | [] => CNaN
    | _ => CNum (sem_zeros f ++ (if forallb truthy campos then [] else u ".0"))
    end
  else celula f.

Fixpoint ler_linha (linhas : list (list pystr)) (j : nat) (fs : list pystr)
    : list cell :=
  match fs with
  | [] => []
  | f :: t => ler_celula (map (fun l => nth j l []) linhas) f
              :: ler_linha linhas (S j) t
  end.

Definition sem_bom (bs : list N) : list N :=
  match bs with
  | 239 :: 187 :: 191 :: t => t
  | _ => bs
  end%N.

(** Blank lines are skipped, the first line names the columns, an empty
    field is read back as missing, a field of a column of numbers as a
    number, any other one as text. A file without a line raises. *)
Definition read_csv_ref (encoding : pystr) (file : Upload) : option DataFrame :=
  let texto := if eqb encoding (u "utf-8")
               then utf8_decode (sem_bom (content file))
               else content file in
  match filter truthy (split_on 10 texto) with
  | [] => None
  | cabecalho :: linhas =>
      let cols := split_on 44 cabecalho in
      let campos := map (split_on 44) linhas in
      Some {| columns := cols;
              rows := map (fun fs => combine cols (ler_linha campos 0 fs)) campos |}
  end.

(** The instance reads no workbook, and lower-cases no further than
    [lower]. *)
Definition referencia : Bibliotecas :=
  {| to_datetime := to_datetime_ref;
     re_compile := re_compile_ref;
     str_timestamp := str_timestamp_ref;
     str_datetime := str_datetime_ref;
     str_lower := lower;
     str_lower_latin1 := fun s _ => eq_refl;
     read_csv := read_csv_ref;
     read_excel := fun _ => None;
     to_csv := to_csv_ref |}.

End Referencia.

(** ** The table of the scenarios *)

Module Cenario.

Import Referencia.

Definition linha (status setor data cliente : string) : Row :=
  [(u "Status", CStr (u status)); (u "Setor", CStr (u setor));
   (u "Data", CStr (u data)); (u "Cliente", CStr (u cliente))].

Definition tabela : DataFrame :=
  {| columns := [u "Status"; u "Setor"; u "Data"; u "Cliente"];
     rows := [linha "Aberta" "TI" "01/03/2024" "Ana";
              linha "Concluída" "RH" "15/02/2024" "Bruno";
              linha "Aberta" "TI" "20/02/2024" "Carla"] |}.

Definition arquivo : Upload :=
  {| name := u "chamados.csv"; content := utf8_encode (to_csv_ref tabela) |}.

(** 2024-03-05, 00:00, in nanoseconds. *)
Definition agora : Z := (19787 * ns_por_dia)%Z.

Definition tudo : Widgets :=
  {| dept_todos := true; dept_multiselect := [];
     status_todos := true; status_multiselect := [];
     periodo_selectbox := TodoPeriodo; busca := [] |}.

Definition clientes (r : Resultado) : list cell :=
  match r with
  | Renderizou p => column (df_filtrado p) (u "Cliente")
  | _ => []
  end.

End Cenario.
(** ** Vocabulary of the statements *)

(** A column name stands for the status: trimmed, lower-cased and with
    ç, ã, õ replaced, it contains one of the four words. *)
Definition casa_status (col : pystr) : bool :=
  existsb (fun palavra => contains palavra
             (replace 245 111 (replace 227 97 (replace 231 99 (lower (strip col))))))
          [u "status"; u "situacao"; u "situacão"; u "estado"].

(** The normaliser as the script runs it: status first, department next. *)
Definition normalizar `{Bibliotecas} (cs : pystr) (cd : option pystr)
    (df : DataFrame) : DataFrame :=
  com_departamento cd (com_status cs df).

(** A table that already has a column named [status_normalizado]. *)
Definition tabela_reexportada : DataFrame :=
  {| columns := [u "status_normalizado"];
     rows := [[(u "status_normalizado", CStr (u " Aberta "))]] |}.

(** A table whose only status reads ["nan"] once trimmed. *)
Definition tabela_nan : DataFrame :=
  {| columns := [u "Status"];
     rows := [[(u "Status", CStr (u " nan"))]] |}.

Definition arquivo_nan : Upload :=
  {| name := u "nan.csv";
     content := utf8_encode (Referencia.to_csv_ref tabela_nan) |}.

(** An upload without a status column. *)
Definition arquivo_sem_status : Upload :=
  {| name := u "clientes.csv";
     content := utf8_encode (u "Cliente,Setor") ++ [10%N]
                ++ utf8_encode (u "Ana,TI") ++ [10%N] |}.

(** Nothing ticked, nothing chosen in the status multiselect. *)
Definition sem_status : Widgets :=
  {| dept_todos := true; dept_multiselect := [];
     status_todos := false; status_multiselect := [];
     periodo_selectbox := TodoPeriodo; busca := [] |}.

Definition carimbo0 : pystr := u "20240305_0000".

(** A table with one status and one value that reads "nan". *)
Definition tabela_mista : DataFrame :=
  {| columns := [u "Status"];
     rows := [[(u "Status", CStr (u "Aberta"))]; [(u "Status", CStr (u " nan"))]] |}.

Definition painel (r : Resultado) : option Painel :=
  match r with Renderizou p => Some p | _ => None end.

(** The date filter and the free-text filter, as [aplicar_filtros] chains
    them. *)
Definition demais_filtros `{Bibliotecas} (cdata : option pystr) (p : Periodo)
    (q : pystr) (agora : Z) (df : DataFrame) : option (list mensagem * DataFrame) :=
  let '(avisos, d3) := filtro_periodo cdata p agora df in
  match filtro_busca q d3 with
  | Some d4 => Some (avisos, d4)
  | None => None
  end.

(** The scenario table with its two derived columns. *)
Definition tabela_normalizada : DataFrame :=
  normalizar (H := Referencia.referencia) (u "Status") (Some (u "Setor"))
             Cenario.tabela.

(** The columns after an assignment to [col]. *)
Definition com_coluna (df : DataFrame) (col : pystr) : list pystr :=
  if isin col (columns df) then columns df else columns df ++ [col].

(** A row with its converted date attached. *)
Definition anexa_data (c : pystr) (converte : cell -> option Timestamp) (r : Row)
    : Row :=
  set r data_convertida (cell_of_timestamp (converte (get r c))).

(** The date of the row parses. *)
Definition tem_data (c : pystr) (converte : cell -> option Timestamp) (r : Row)
    : bool :=
  match converte (get r c) with Some _ => true | None => false end.

(** The date of the row parses and is not before the limit. *)
Definition na_janela (c : pystr) (converte : cell -> option Timestamp)
    (limite : Z) (r : Row) : bool :=
  match converte (get r c) with
  | Some t => (limite <=? ts_ns t)%Z
  | None => false
  end.

(** Some converted date of the rows carries a time zone. *)
Definition tz_aware_em (c : pystr) (converte : cell -> option Timestamp)
    (rs : list Row) : bool :=
  existsb (fun r => match converte (get r c) with
                    | Some t => ts_aware t
                    | None => false
                    end) rs.

(** An upload whose dates are ISO instants in UTC, years before [agora]. *)
Definition arquivo_utc : Upload :=
  {| name := u "utc.csv";
     content := utf8_encode (u "Status,Data") ++ [10%N]
                ++ utf8_encode (u "Aberta,2020-01-01T00:00:00Z") ++ [10%N] |}.

Definition tabela_utc : DataFrame :=
  normalizar (H := Referencia.referencia) (u "Status") None
    {| columns := [u "Status"; u "Data"];
       rows := [[(u "Status", CStr (u "Aberta"));
                 (u "Data", CStr (u "2020-01-01T00:00:00Z"))]] |}.

(** An upload none of whose dates can be read. *)
Definition arquivo_sem_datas : Upload :=
  {| name := u "sem_datas.csv";
     content := utf8_encode (u "Status,Data") ++ [10%N]
                ++ utf8_encode (u "Aberta,ontem") ++ [10%N]
                ++ utf8_encode (u "Fechada,?") ++ [10%N] |}.

Definition ultimos7 : Widgets :=
  {| dept_todos := true; dept_multiselect := [];
     status_todos := true; status_multiselect := [];
     periodo_selectbox := Ultimos7; busca := [] |}.

(** The four predicates of the filter engine, worded as the specification
    words them. *)
Definition pred_departamento (cd : option pystr) (depts : list pystr) (r : Row)
    : bool :=
  if verdadeiro cd then cell_isin (get r departamento_normalizado) depts else true.

Definition pred_status (sts : list pystr) (r : Row) : bool :=
  cell_isin (get r status_normalizado) sts.

(** The query, lower-cased, occurs in the lower-cased text of some cell. *)
Definition pred_busca `{Bibliotecas} (q : pystr) (r : Row) : bool :=
  if truthy q
  then existsb (fun kv : pystr * cell => contains (lower q) (lower (astype_str (snd kv)))) r
  else true.

(** The free-text condition as the script applies it to a row of [df], when
    the pattern is read literally: the query, lower-cased by Python, occurs
    in the lower-cased text that [df.astype(str)] gives one of the cells. *)
Definition casa_busca `{Bibliotecas} (q : pystr) (df : DataFrame) (r : Row) : bool :=
  if truthy q
  then existsb (fun kv => contains (str_lower q) (texto_em df kv)) r
  else true.

(** The two membership predicates as the script applies them: a selection
    that is empty lets every row pass. *)
Definition passa_departamento (cd : option pystr) (depts : list pystr) (r : Row)
    : bool :=
  if verdadeiro cd && nao_vazia depts
  then cell_isin (get r departamento_normalizado) depts
  else true.

Definition passa_status (sts : list pystr) (r : Row) : bool :=
  if nao_vazia sts then cell_isin (get r status_normalizado) sts else true.

(** [l1] is [l2] with some elements left out, the others in their order. *)
Inductive Subseq {A : Type} : list A -> list A -> Prop :=
| Subseq_nil : Subseq [] []
| Subseq_skip (x : A) (l1 l2 : list A) : Subseq l1 l2 -> Subseq l1 (x :: l2)
| Subseq_keep (x : A) (l1 l2 : list A) : Subseq l1 l2 -> Subseq (x :: l1) (x :: l2).

(** Two rows with the same cells, the parsed-date column apart. *)
Definition mesma_linha (r r' : Row) : Prop :=
  forall col, col <> data_convertida -> get r' col = get r col.

(** No department ticked, none chosen in the multiselect. *)
Definition sem_departamentos : Widgets :=
  {| dept_todos := false; dept_multiselect := [];
     status_todos := true; status_multiselect := [];
     periodo_selectbox := TodoPeriodo; busca := [] |}.

Definition com_busca (q : string) : Widgets :=
  {| dept_todos := true; dept_multiselect := [];
     status_todos := true; status_multiselect := [];
     periodo_selectbox := TodoPeriodo; busca := u q |}.

Definition ultimos90 : Widgets :=
  {| dept_todos := true; dept_multiselect := [];
     status_todos := true; status_multiselect := [];
     periodo_selectbox := Ultimos90; busca := [] |}.

(** The (calendar date, status) groups of a table, its date column read day
    first. *)
Definition grupos_por_data `{Bibliotecas} (c : pystr) (df : DataFrame)
    : list (Z * pystr) :=
  match to_datetime true (column df c) with
  | Some converte =>
      df_evolucao {| columns := com_coluna df data_convertida;
                     rows := map (anexa_data c converte) (rows df) |}
  | None => []
  end.

(** An upload with a remark on the closed ticket only. *)
Definition arquivo_obs : Upload :=
  {| name := u "obs.csv";
     content := utf8_encode (u "Status,Obs") ++ [10%N]
                ++ utf8_encode (u "Aberta,") ++ [10%N]
                ++ utf8_encode (u "Fechada,ok") ++ [10%N] |}.


Definition so_abertas : Widgets :=
  {| dept_todos := true; dept_multiselect := [];
     status_todos := false; status_multiselect := [u "Aberta"];
     periodo_selectbox := TodoPeriodo; busca := [] |}.

(** The column has a value in some row. *)
Definition tem_valor (df : DataFrame) (c : pystr) : bool :=
  existsb (fun r => negb (isna (get r c))) (rows df).


Definition abertas_ti : Widgets :=
  {| dept_todos := false; dept_multiselect := [u "TI"];
     status_todos := false; status_multiselect := [u "Aberta"];
     periodo_selectbox := TodoPeriodo; busca := [] |}.

(** ** The rest of the page: counts, cards, colours, charts, detail table *)

(** *** Counts by department and status *)

(** The (department, status) key of a row. *)
Definition par_dept_status (r : Row) : option (pystr * pystr) :=
  match get r departamento_normalizado, get r status_normalizado with
  | CStr d, CStr s => Some (d, s)
  | _, _ => None
  end.

Definition par_eqb (a b : pystr * pystr) : bool :=
  eqb (fst a) (fst b) && eqb (snd a) (snd b).

Definition par_leb (a b : pystr * pystr) : bool :=
  if eqb (fst a) (fst b) then leb (snd a) (snd b) else leb (fst a) (fst b).

(** [groupby(['departamento_normalizado', 'status_normalizado']).size()] *)
Definition df_pivot (df_filtrado : DataFrame) : list (pystr * pystr * nat) :=
  tamanhos par_eqb par_leb
    (flat_map (fun r => match par_dept_status r with Some k => [k] | None => [] end)
              (rows df_filtrado)).

(** *** Colours *)

Definition cores_status : list (pystr * pystr) :=
  [(u "Aberta", u "#27ae60"); (u "Aberto", u "#27ae60");
   (u "Pendente", u "#f39c12"); (u "Aguardando", u "#f39800");
   (u "Em Análise", u "#3498db"); (u "Análise", u "#3498db");
   (u "Recusada", u "#e74c3c"); (u "Recusado", u "#e74c3c");
   (u "Negada", u "#c0392b"); (u "Cancelada", u "#95a5a6");
   (u "Fechada", u "#7f8c8d"); (u "Concluída", u "#16a085");
   (u "Concluida", u "#16a085"); (u "Nova", u "#3498db");
   (u "Ativa", u "#27ae60"); (u "Em Andamento", u "#f1c40f");
   (u "Reparo", u "#9b59b6"); (u "Teste", u "#34495e")].

Definition cinza : pystr := u "#95a5a6".

(** The loop over [cores_status.items()] with its [break]: the colour of the
    first entry whose key contains the status or is contained in it, letter
    case apart; grey when there is none. *)
Definition cor_status (status : pystr) : pystr :=
  match find (fun kv : pystr * pystr =>
                contains (lower (fst kv)) (lower status)
                || contains (lower status) (lower (fst kv)))
             cores_status with
  | Some kv => snd kv
  | None => cinza
  end.

(** [destacar_status]: the style of a status cell of the detail table. *)
Definition destacar_status (val : cell) : pystr :=
  match val with
  | CStr s => u "background-color: " ++ cor_status (strip s)
              ++ u "; color: white; font-weight: bold;"
  | _ => []
  end.

Definition cores_base : list pystr :=
  [u "#3498db"; u "#9b59b6"; u "#1abc9c"; u "#f1c40f"; u "#e74c3c"; u "#34495e";
   u "#16a085"; u "#2980b9"].

(** *** Cards *)

(** [range(0, n, k)] for a positive step. *)
Definition range_step (n k : nat) : list nat :=
  map (fun q => q * k) (seq 0 ((n + k - 1) / k)).

(** [l[i:j]] *)
Definition iloc {A : Type} (l : list A) (i j : nat) : list A :=
  firstn (j - i) (skipn i l).

(** [min(maximo, num if num > 0 else 1)] *)
Definition cols_por_linha (maximo num : nat) : nat :=
  Nat.min maximo (if 0 <? num then num else 1).

Record Card := mkCard { titulo : pystr; quantidade : nat; cor : pystr }.

(** The rows of cards of a count series: [enumerate] gives each entry of a
    row its place [j], and [pinta] its colour from the place and the label. *)
Definition faz_card (pinta : nat -> pystr -> pystr) (jsq : nat * (pystr * nat))
    : Card :=
  {| titulo := fst (snd jsq); quantidade := snd (snd jsq);
     cor := pinta (fst jsq) (fst (snd jsq)) |}.

Definition cards (maximo : nat) (pinta : nat -> pystr -> pystr)
    (serie : list (pystr * nat)) : list (list Card) :=
  let num := List.length serie in
  let k := cols_por_linha maximo num in
  map (fun i =>
         map (faz_card pinta)
             (combine (seq 0 (List.length (iloc serie i (i + k)))) (iloc serie i (i + k))))
      (range_step num k).

(** The status cards: at most six in a row, coloured by the label. *)
Definition cards_status (df_filtrado : DataFrame) : list (list Card) :=
  cards 6 (fun _ status => cor_status status) (contagem_status df_filtrado).

(** The department cards: at most five in a row, coloured by the place in
    the row; none without a department column or without rows. *)
Definition cards_dept (cd : option pystr) (df_filtrado : DataFrame)
    : list (list Card) :=
  if verdadeiro cd && negb (Nat.eqb (List.length (rows df_filtrado)) 0)
  then cards 5 (fun j _ => nth (j mod List.length cores_base) cores_base [])
             (contagem_dept df_filtrado)
  else [].

(** *** Charts *)

(** [len(df_filtrado['departamento_normalizado'].unique()) > 1] *)
Definition varios_departamentos (df_filtrado : DataFrame) : bool :=
  1 <? List.length (unique (strings_of (column df_filtrado departamento_normalizado))).

Inductive GraficoDireito := DonutDepartamento | BarrasStatus | SemGrafico.

(** The right-hand chart of "Análise Visual" (the section is there when the
    table has rows). *)
Definition grafico_direito (cd : option pystr) (df_filtrado : DataFrame)
    : GraficoDireito :=
  if Nat.eqb (List.length (rows df_filtrado)) 0 then SemGrafico
  else if verdadeiro cd && varios_departamentos df_filtrado then DonutDepartamento
  else if 0 <? List.length (contagem_status df_filtrado) then BarrasStatus
  else SemGrafico.

(** Whether the grouped bar chart "Status por Departamento" is drawn. *)
Definition grafico_comparativo (cd : option pystr) (df_filtrado : DataFrame) : bool :=
  verdadeiro cd && negb (Nat.eqb (List.length (rows df_filtrado)) 0)
  && varios_departamentos df_filtrado
  && (0 <? List.length (df_pivot df_filtrado)).

(** *** Detail table *)

Definition palavras_relevantes : list pystr :=
  [u "status"; u "departamento"; u "setor"; u "data"; u "cliente"; u "produto";
   u "defeito"; u "tecnico"; u "observacao"; u "observação"; u "modelo";
   u "serie"; u "número"; u "telefone"; u "endereço"; u "endereco"; u "contato";
   u "razao"; u "social"; u "empresa"; u "cliente"].

(** One of the words occurs in the lower-cased column name. *)
Definition relevante (col : pystr) : bool :=
  existsb (fun palavra => contains palavra (lower col)) palavras_relevantes.

Definition colunas_relevantes (cols : list pystr) : list pystr :=
  filter relevante cols.

Definition colunas_internas : list pystr :=
  [status_normalizado; departamento_normalizado; data_convertida].

(** [colunas_relevantes or df_filtrado.columns.tolist()], without the
    internal columns. *)
Definition colunas_exibir (cols : list pystr) : list pystr :=
  filter (fun col => negb (isin col colunas_internas))
         (match colunas_relevantes cols with
          | [] => cols
          | relevantes => relevantes
          end).

(** The default of the column multiselect: the first eight options, the
    company name put first when there is one. *)
Definition colunas_default (exibir : list pystr) : list pystr :=
  let primeiras := firstn (Nat.min 8 (List.length exibir)) exibir in
  if isin (u "Razão Social") exibir then
    u "Razão Social" :: filter (fun c => negb (eqb c (u "Razão Social"))) primeiras
  else if isin (u "Razao Social") exibir then
    u "Razao Social" :: filter (fun c => negb (eqb c (u "Razao Social"))) primeiras
  else if isin (u "razão social") (map lower exibir) then
    filter (fun c => eqb (lower c) (u "razão social")) exibir
    ++ filter (fun c => negb (eqb (lower c) (u "razão social"))) primeiras
  else primeiras.

(** The columns of [df_exibir]. *)
Definition colunas_df_exibir (selecionadas exibir : list pystr) : list pystr :=
  match selecionadas with
  | [] => exibir
  | _ => selecionadas
  end.

(** In every row the two derived columns hold text. *)
Definition texto_derivado (df : DataFrame) : Prop :=
  forall r, In r (rows df) ->
            (exists s, get r status_normalizado = CStr s)
            /\ (exists d, get r departamento_normalizado = CStr d).

(** Sum of the counts of a series. *)
Definition total (serie : list (pystr * nat)) : nat :=
  fold_right (fun kv acc => snd kv + acc) 0 serie.

(** A column name stands for the department: trimmed, lower-cased and with
    ç, ã, õ replaced, it contains one of the eight words. *)
Definition casa_departamento (col : pystr) : bool :=
  existsb (fun palavra => contains palavra
             (replace 245 111 (replace 227 97 (replace 231 99 (lower (strip col))))))
          [u "departamento"; u "setor"; u "area"; u "área"; u "dept"; u "unidade";
           u "equipe"; u "time"].

(** A column name stands for the date: trimmed and lower-cased, it contains
    one of the five words. *)
Definition casa_data (col : pystr) : bool :=
  existsb (fun palavra => contains palavra (lower (strip col)))
          [u "data"; u "dt_"; u "abertura"; u "entrada"; u "registro"].

(** The row has a status that can be selected: text, not empty, not "nan". *)
Definition status_selecionavel (r : Row) : bool :=
  match get r status_normalizado with
  | CStr s => truthy s && negb (eqb s (u "nan"))
  | _ => false
  end.

(** A table whose open ticket has no remark. *)
Definition tabela_obs : DataFrame :=
  {| columns := [u "Status"; u "Obs"];
     rows := [[(u "Status", CStr (u "Aberta")); (u "Obs", CNaN)];
              [(u "Status", CStr (u "Fechada")); (u "Obs", CStr (u "ok"))]] |}.

(** ** Facts about strings, rows and frames *)

Lemma eqb_eq (a b : pystr) : eqb a b = true <-> a = b.
Proof.
  unfold eqb. destruct (list_eq_dec N.eq_dec a b); split; congruence.
Qed.

Lemma eqb_refl (a : pystr) : eqb a a = true.
Proof. now apply eqb_eq. Qed.

Lemma eqb_neq (a b : pystr) : eqb a b = false <-> a <> b.
Proof.
  unfold eqb. destruct (list_eq_dec N.eq_dec a b); split; congruence.
Qed.

Lemma isin_In (s : pystr) (l : list pystr) : isin s l = true <-> In s l.
Proof.
  unfold isin. rewrite existsb_exists. split.
  - intros [x [Hx He]]. apply eqb_eq in He. now subst.
  - intros Hin. exists s. split; [assumption | apply eqb_refl].
Qed.

Lemma In_insert_sorted (x y : pystr) (l : list pystr) :
  In x (insert_sorted y l) <-> y = x \/ In x l.
Proof.
  induction l as [| z t IH]; simpl.
  - tauto.
  - destruct (leb y z); simpl; [tauto | rewrite IH; tauto].
Qed.

Lemma In_sorted (x : pystr) (l : list pystr) : In x (sorted l) <-> In x l.
Proof.
  induction l as [| y t IH]; simpl.
  - tauto.
  - rewrite In_insert_sorted, IH. tauto.
Qed.

Lemma In_unique (x : pystr) (l : list pystr) : In x (unique l) <-> In x l.
Proof.
  induction l as [| y t IH]; simpl.
  - tauto.
  - rewrite filter_In, IH. destruct (eqb y x) eqn:E.
    + apply eqb_eq in E. subst. simpl. intuition congruence.
    + apply eqb_neq in E. simpl. intuition congruence.
Qed.

Lemma get_set_other (r : Row) (col c : pystr) (v : cell) :
  c <> col -> get (set r col v) c = get r c.
Proof.
  intros Hne. induction r as [| [k w] t IH]; simpl.
  - destruct (eqb col c) eqn:E; [apply eqb_eq in E; congruence | reflexivity].
  - destruct (eqb k col) eqn:E; simpl.
    + apply eqb_eq in E. subst k.
      destruct (eqb col c) eqn:E'; [apply eqb_eq in E'; congruence | reflexivity].
    + destruct (eqb k c); [reflexivity | exact IH].
Qed.

Lemma get_set_same (r : Row) (col : pystr) (v : cell) :
  get (set r col v) col = v.
Proof.
  induction r as [| [k w] t IH]; simpl.
  - now rewrite eqb_refl.
  - destruct (eqb k col) eqn:E; simpl; rewrite E; [reflexivity | exact IH].
Qed.

Lemma column_set_column_other (df : DataFrame) (col c : pystr) (f : Row -> cell) :
  c <> col -> column (set_column df col f) c = column df c.
Proof.
  intros Hne. unfold column, set_column. simpl. rewrite map_map.
  apply map_ext. intros r. now apply get_set_other.
Qed.

Lemma columns_set_column (df : DataFrame) (col c : pystr) (f : Row -> cell) :
  In c (columns df) -> In c (columns (set_column df col f)).
Proof.
  intros Hin. unfold set_column. simpl.
  destruct (isin col (columns df)); [assumption | apply in_or_app; now left].
Qed.

Lemma filter_all {A : Type} (f : A -> bool) (l : list A) :
  (forall x, In x l -> f x = true) -> filter f l = l.
Proof.
  induction l as [| a t IH]; simpl; intros Hall.
  - reflexivity.
  - rewrite (Hall a (or_introl eq_refl)). f_equal. apply IH.
    intros x Hx. apply Hall. now right.
Qed.

Lemma find_split {A : Type} (f : A -> bool) (l : list A) (x : A) :
  find f l = Some x ->
  exists antes depois,
    l = antes ++ x :: depois /\ f x = true /\ forall y, In y antes -> f y = false.
Proof.
  induction l as [| a t IH]; simpl; intros Hf.
  - discriminate.
  - destruct (f a) eqn:E.
    + injection Hf as <-. exists [], t. repeat split; [assumption | intros y []].
    + destruct (IH Hf) as [antes [depois [-> [Hx Hpre]]]].
      exists (a :: antes), depois. repeat split; [assumption |].
      intros y [<- | Hy]; [assumption | now apply Hpre].
Qed.

Lemma col_status_find (cols : list pystr) : col_status cols = find casa_status cols.
Proof. reflexivity. Qed.

(** ** The scenarios, run on the reference instance *)

Example cenario_colunas :
  col_status (columns Cenario.tabela) = Some (u "Status")
  /\ col_departamento (columns Cenario.tabela) = Some (u "Setor")
  /\ col_data (columns Cenario.tabela) = Some (u "Data").
Proof. repeat split; vm_compute; reflexivity. Qed.

Example cenario_universo :
  todos_status tabela_normalizada = [u "Aberta"; u "Concluída"]
  /\ todos_departamentos (Some (u "Setor")) tabela_normalizada = [u "RH"; u "TI"].
Proof. split; vm_compute; reflexivity. Qed.

Example cenario_abertas_ti :
  Cenario.clientes (dashboard (H := Referencia.referencia) Cenario.arquivo abertas_ti
                              Cenario.agora carimbo0)
  = [CStr (u "Ana"); CStr (u "Carla")].
Proof. vm_compute. reflexivity. Qed.

Example cenario_ultimos_7_dias :
  Cenario.clientes (dashboard (H := Referencia.referencia) Cenario.arquivo ultimos7
                              Cenario.agora carimbo0)
  = [CStr (u "Ana")].
Proof. vm_compute. reflexivity. Qed.

Example cenario_busca_ana :
  Cenario.clientes (dashboard (H := Referencia.referencia) Cenario.arquivo
                              (com_busca "ana") Cenario.agora carimbo0)
  = [CStr (u "Ana")].
Proof. vm_compute. reflexivity. Qed.

(** ** The column classifier *)

(** C3: the status column is the earliest column, in the order of the
    table, whose normalised name contains one of "status", "situacao",
    "situacão", "estado"; when no column does, the run stops after the error
    message and the list of the column names, and nothing else is produced. *)
Theorem C3_col_status_earliest_or_halt :
  (forall cols : list pystr,
      match col_status cols with
      | Some c =>
          exists antes depois,
            cols = antes ++ c :: depois /\ casa_status c = true
            /\ forall x, In x antes -> casa_status x = false
      | None => forall x, In x cols -> casa_status x = false
      end)
  /\ (forall (L : Bibliotecas) (file : Upload) (w : Widgets) (agora : Z)
             (carimbo : pystr) (df : DataFrame),
        carregar_dados file = ([], Some df) ->
        empty df = false ->
        (forall x, In x (columns df) -> casa_status x = false) ->
        dashboard file w agora carimbo
        = Parou [ErroSemColunaStatus; ColunasDisponiveis (columns df)]).
Proof.
  split.
  - intros cols. rewrite col_status_find.
    destruct (find casa_status cols) as [c |] eqn:E.
    + now apply find_split.
    + intros x Hx. exact (find_none _ _ E x Hx).
  - intros L file w agora carimbo df Hload Hne Hnone.
    unfold dashboard. rewrite Hload, Hne.
    rewrite col_status_find.
    destruct (find casa_status (columns df)) as [c |] eqn:E; [| reflexivity].
    apply find_some in E. destruct E as [Hin Hc].
    rewrite (Hnone c Hin) in Hc. discriminate.
Qed.

Lemma C3_witness :
  dashboard (H := Referencia.referencia) arquivo_sem_status Cenario.tudo
            Cenario.agora carimbo0
  = Parou [ErroSemColunaStatus; ColunasDisponiveis [u "Cliente"; u "Setor"]].
Proof.
  apply (proj2 C3_col_status_earliest_or_halt Referencia.referencia
               arquivo_sem_status Cenario.tudo Cenario.agora carimbo0
               {| columns := [u "Cliente"; u "Setor"];
                  rows := [[(u "Cliente", CStr (u "Ana")); (u "Setor", CStr (u "TI"))]] |}).
  - vm_compute. reflexivity.
  - reflexivity.
  - intros x [<- | [<- | []]]; vm_compute; reflexivity.
Defined.

(** ** The normaliser *)

Lemma column_normalizar (L : Bibliotecas) (df : DataFrame) (cs : pystr)
    (cd : option pystr) (c : pystr) :
  c <> status_normalizado -> c <> departamento_normalizado ->
  column (normalizar cs cd df) c = column df c.
Proof.
  intros Hs Hd. unfold normalizar, com_departamento, com_status.
  destruct (verdadeiro cd); [destruct cd as [d |] |];
    rewrite ?column_set_column_other by assumption; reflexivity.
Qed.

Lemma columns_normalizar (L : Bibliotecas) (df : DataFrame) (cs : pystr)
    (cd : option pystr) (c : pystr) :
  In c (columns df) -> In c (columns (normalizar cs cd df)).
Proof.
  intros Hin. unfold normalizar, com_departamento, com_status.
  destruct (verdadeiro cd); [destruct cd as [d |] |];
    repeat apply columns_set_column; assumption.
Qed.

(** C9, as the code has it: deriving the two columns leaves the values of
    every column unchanged, and every column in place, except a column of the
    table that is itself named [status_normalizado] or
    [departamento_normalizado], which the assignment overwrites. *)
Theorem C9_normalizar_keeps_raw_columns :
  forall (L : Bibliotecas) (df : DataFrame) (cs : pystr) (cd : option pystr)
         (c : pystr),
    c <> status_normalizado -> c <> departamento_normalizado ->
    column (normalizar cs cd df) c = column df c
    /\ (In c (columns df) -> In c (columns (normalizar cs cd df))).
Proof.
  intros L df cs cd c Hs Hd. split.
  - now apply column_normalizar.
  - now apply columns_normalizar.
Qed.

Lemma C9_witness :
  column (normalizar (H := Referencia.referencia) (u "Status") (Some (u "Setor"))
                     Cenario.tabela) (u "Status")
  = column Cenario.tabela (u "Status")
  /\ (In (u "Status") (columns Cenario.tabela) ->
      In (u "Status")
         (columns (normalizar (H := Referencia.referencia) (u "Status")
                              (Some (u "Setor")) Cenario.tabela))).
Proof.
  apply (C9_normalizar_keeps_raw_columns Referencia.referencia Cenario.tabela
           (u "Status") (Some (u "Setor")) (u "Status"));
    vm_compute; discriminate.
Defined.

(** C9, as stated, fails on a table that already carries a column named
    [status_normalizado] (an export of this dashboard loaded again): the
    column is the detected status column, and its raw value " Aberta " is
    replaced by the trimmed one. *)
Lemma C9_counterexample :
  col_status (columns tabela_reexportada) = Some status_normalizado
  /\ In status_normalizado (columns tabela_reexportada)
  /\ column tabela_reexportada status_normalizado = [CStr (u " Aberta ")]
  /\ column (normalizar (H := Referencia.referencia) status_normalizado
                        (col_departamento (columns tabela_reexportada))
                        tabela_reexportada) status_normalizado
     = [CStr (u "Aberta")].
Proof.
  repeat split; try (vm_compute; reflexivity). vm_compute. now left.
Qed.

(** ** The universe of selectable values *)

Lemma nan_fora_de_todos (df : DataFrame) (col : pystr) : ~ In (u "nan") (todos df col).
Proof.
  unfold todos. rewrite In_sorted, filter_In. intros [_ Hf].
  rewrite eqb_refl in Hf. simpl negb in Hf.
  rewrite andb_false_r in Hf. discriminate.
Qed.

Lemma select_In (keep : Row -> bool) (df : DataFrame) (r : Row) :
  In r (rows (select keep df)) <-> In r (rows df) /\ keep r = true.
Proof. unfold select. simpl. apply filter_In. Qed.

Lemma cell_isin_todos (df : DataFrame) (col : pystr) (c : cell) :
  cell_isin c (todos df col) = true -> c <> CStr (u "nan").
Proof.
  intros Hin Heq. subst c. simpl in Hin. apply isin_In in Hin.
  exact (nan_fora_de_todos _ _ Hin).
Qed.

Lemma strings_com_status (L : Bibliotecas) (cs : pystr) (df0 : DataFrame) :
  strings_of (column (com_status cs df0) status_normalizado)
  = map (fun r => strip (astype_str (fillna [] (get r cs)))) (rows df0).
Proof.
  unfold column, com_status, set_column. simpl. rewrite map_map.
  induction (rows df0) as [| r t IH]; simpl.
  - reflexivity.
  - rewrite get_set_same. unfold normalizado at 1. simpl. now rewrite IH.
Qed.

Lemma selecionavel (s : pystr) :
  truthy s && negb (eqb s (u "nan")) && negb (eqb s []) = true
  <-> s <> [] /\ s <> u "nan".
Proof.
  rewrite !andb_true_iff, !negb_true_iff, !eqb_neq.
  destruct s; simpl; intuition congruence.
Qed.

Lemma filtro_status_sem_nan (df d : DataFrame) (col : pystr) (r : Row) :
  todos d col <> [] ->
  In r (rows (filtro_status (todos d col) df)) ->
  get r status_normalizado <> CStr (u "nan").
Proof.
  intros Hne Hr. unfold filtro_status in Hr.
  destruct (todos d col) as [| s t] eqn:E; [congruence |].
  simpl in Hr. rewrite <- E in Hr. apply filter_In in Hr.
  destruct Hr as [_ Hr]. exact (cell_isin_todos _ _ _ Hr).
Qed.

Lemma filtro_departamento_sem_nan (cd : option pystr) (df : DataFrame) (r : Row) :
  todos_departamentos cd df <> [] ->
  In r (rows (filtro_departamento cd (todos_departamentos cd df) df)) ->
  get r departamento_normalizado <> CStr (u "nan").
Proof.
  intros Hne Hr. unfold filtro_departamento in Hr.
  unfold todos_departamentos in *.
  destruct (verdadeiro cd); [| congruence].
  destruct (todos df departamento_normalizado) as [| s t] eqn:E; [congruence |].
  simpl in Hr. rewrite <- E in Hr. apply filter_In in Hr.
  destruct Hr as [_ Hr]. exact (cell_isin_todos _ _ _ Hr).
Qed.

(** C10, as the code has it: the universe of selectable statuses holds
    exactly the trimmed status texts of the table that are neither empty nor
    the text "nan", so a row whose trimmed status reads "nan" contributes
    nothing to it, and likewise "nan" is never a selectable department. With
    the whole universe selected and the universe not empty, the membership
    filter removes every row whose normalised value is "nan". (With an empty
    universe the filter is skipped and such rows stay.) *)
Theorem C10_nan_outside_universe :
  forall (L : Bibliotecas) (df0 : DataFrame) (cs : pystr) (cd : option pystr),
    let df_s := com_status cs df0 in
    let df := normalizar cs cd df0 in
    (forall s, In s (todos_status df_s) <->
               (exists r, In r (rows df0)
                          /\ strip (astype_str (fillna [] (get r cs))) = s)
               /\ s <> [] /\ s <> u "nan")
    /\ ~ In (u "nan") (todos_departamentos cd df)
    /\ (todos_status df_s <> [] ->
        forall r, In r (rows (filtro_status (todos_status df_s) df)) ->
                  get r status_normalizado <> CStr (u "nan"))
    /\ (todos_departamentos cd df <> [] ->
        forall r, In r (rows (filtro_departamento cd (todos_departamentos cd df) df)) ->
                  get r departamento_normalizado <> CStr (u "nan")).
Proof.
  intros L df0 cs cd df_s df. split; [| split; [| split]].
  - intros s. unfold todos_status, todos, df_s.
    rewrite In_sorted, filter_In, In_unique, strings_com_status, in_map_iff,
      selecionavel.
    split; intros [[r [H1 H2]] H3]; (split; [exists r; tauto | exact H3]).
  - unfold todos_departamentos. destruct (verdadeiro cd);
      [apply nan_fora_de_todos | intros []].
  - intros Hne r Hr. exact (filtro_status_sem_nan df df_s _ r Hne Hr).
  - intros Hne r Hr. exact (filtro_departamento_sem_nan cd df r Hne Hr).
Qed.

Lemma C10_witness :
  todos_status (com_status (H := Referencia.referencia) (u "Status") tabela_mista)
  = [u "Aberta"]
  /\ Forall (fun r => get r status_normalizado <> CStr (u "nan"))
       (rows (filtro_status
                (todos_status (com_status (H := Referencia.referencia)
                                          (u "Status") tabela_mista))
                (normalizar (H := Referencia.referencia) (u "Status") None
                            tabela_mista))).
Proof.
  split; [reflexivity |]. apply Forall_forall.
  apply (proj1 (proj2 (proj2
           (C10_nan_outside_universe Referencia.referencia tabela_mista
              (u "Status") None)))).
  vm_compute. discriminate.
Defined.

(** C10, as stated, fails when the universe is empty: on a table whose only
    status reads "nan", everything is selected, the selection is the empty
    universe, the status filter is skipped and the row stays. *)
Lemma C10_counterexample :
  status_selecionados Cenario.tudo
    (com_status (H := Referencia.referencia) (u "Status") tabela_nan) = []
  /\ option_map (fun p => column (df_filtrado p) status_normalizado)
        (painel (dashboard (H := Referencia.referencia) arquivo_nan Cenario.tudo
                           Cenario.agora carimbo0))
     = Some [CStr (u "nan")].
Proof. split; vm_compute; reflexivity. Qed.

(** ** Empty selections *)

Lemma select_all (keep : Row -> bool) (df : DataFrame) :
  (forall r, In r (rows df) -> keep r = true) -> select keep df = df.
Proof.
  intros Hall. destruct df as [cols rs]. unfold select. simpl in *.
  f_equal. now apply filter_all.
Qed.

Lemma filtro_status_all (sts : list pystr) (df : DataFrame) :
  (forall r, In r (rows df) -> cell_isin (get r status_normalizado) sts = true) ->
  filtro_status sts df = df.
Proof.
  intros Hall. unfold filtro_status.
  destruct (nao_vazia sts); [now apply select_all | reflexivity].
Qed.

Lemma filtro_departamento_all (cd : option pystr) (depts : list pystr) (df : DataFrame) :
  (forall r, In r (rows df) -> cell_isin (get r departamento_normalizado) depts = true) ->
  filtro_departamento cd depts df = df.
Proof.
  intros Hall. unfold filtro_departamento.
  destruct (verdadeiro cd && nao_vazia depts); [now apply select_all | reflexivity].
Qed.

(** C2, as the code has it: an empty selection of statuses, or of
    departments, removes no row. The membership filter is skipped, the
    Filtered Table is what the remaining filters produce, and it is the table
    that a selection accepting every row would give. *)
Theorem C2_empty_selection_is_no_filter :
  forall (L : Bibliotecas) (cd cdata : option pystr) (depts sts : list pystr)
         (p : Periodo) (q : pystr) (agora : Z) (df : DataFrame),
    aplicar_filtros cd cdata depts [] p q agora df
    = demais_filtros cdata p q agora (filtro_departamento cd depts df)
    /\ aplicar_filtros cd cdata [] sts p q agora df
       = demais_filtros cdata p q agora (filtro_status sts df)
    /\ (forall sts',
          (forall r, In r (rows (filtro_departamento cd depts df)) ->
                     cell_isin (get r status_normalizado) sts' = true) ->
          aplicar_filtros cd cdata depts [] p q agora df
          = aplicar_filtros cd cdata depts sts' p q agora df)
    /\ (forall depts',
          (forall r, In r (rows df) ->
                     cell_isin (get r departamento_normalizado) depts' = true) ->
          aplicar_filtros cd cdata [] sts p q agora df
          = aplicar_filtros cd cdata depts' sts p q agora df).
Proof.
  intros L cd cdata depts sts p q agora df. repeat split.
  - unfold aplicar_filtros, demais_filtros, filtro_departamento.
    rewrite andb_false_r. reflexivity.
  - intros sts' Hall. unfold aplicar_filtros.
    rewrite (filtro_status_all sts' _ Hall). reflexivity.
  - intros depts' Hall. unfold aplicar_filtros.
    rewrite (filtro_departamento_all cd depts' _ Hall).
    unfold filtro_departamento at 1. rewrite andb_false_r. reflexivity.
Qed.

Lemma C2_witness :
  aplicar_filtros (H := Referencia.referencia) (Some (u "Setor")) (Some (u "Data"))
                  [u "TI"] [] TodoPeriodo [] Cenario.agora tabela_normalizada
  = aplicar_filtros (H := Referencia.referencia) (Some (u "Setor")) (Some (u "Data"))
                    [u "TI"] [u "Aberta"; u "Concluída"] TodoPeriodo []
                    Cenario.agora tabela_normalizada.
Proof.
  apply (proj1 (proj2 (proj2
           (C2_empty_selection_is_no_filter Referencia.referencia
              (Some (u "Setor")) (Some (u "Data")) [u "TI"] [] TodoPeriodo []
              Cenario.agora tabela_normalizada)))).
  vm_compute. intros r [<- | [<- | []]]; reflexivity.
Defined.

(** C2, as stated, fails: with no status selected the scenario table keeps
    its three rows. *)
Lemma C2_counterexample :
  status_selecionados sem_status tabela_normalizada = []
  /\ option_map (fun p => List.length (rows (df_filtrado p)))
        (painel (dashboard (H := Referencia.referencia) Cenario.arquivo sem_status
                           Cenario.agora carimbo0))
     = Some 3.
Proof. split; vm_compute; reflexivity. Qed.

(** ** The date window *)

Section DateWindow.

Context {L : Bibliotecas}.
Variables (c : pystr) (converte : cell -> option Timestamp).

Lemma get_anexa_data (r : Row) :
  get (anexa_data c converte r) data_convertida
  = cell_of_timestamp (converte (get r c)).
Proof. apply get_set_same. Qed.

Lemma dropna_anexa (rs : list Row) :
  filter (fun r => negb (isna (get r data_convertida))) (map (anexa_data c converte) rs)
  = map (anexa_data c converte) (filter (tem_data c converte) rs).
Proof.
  induction rs as [| r t IH]; simpl.
  - reflexivity.
  - rewrite get_anexa_data. unfold tem_data.
    destruct (converte (get r c)); simpl; now rewrite IH.
Qed.

Lemma compara_anexa (rs : list Row) :
  compara_raises (map (fun r => get r data_convertida)
                      (map (anexa_data c converte) (filter (tem_data c converte) rs)))
  = tz_aware_em c converte rs.
Proof.
  induction rs as [| r t IH]; simpl.
  - reflexivity.
  - unfold tem_data at 1.
    destruct (converte (get r c)) as [ts |] eqn:E; simpl.
    + rewrite get_anexa_data, E. simpl. now rewrite IH.
    + exact IH.
Qed.

Lemma desde_anexa (limite : Z) (rs : list Row) :
  filter (fun r => desde limite (get r data_convertida))
         (map (anexa_data c converte) (filter (tem_data c converte) rs))
  = map (anexa_data c converte) (filter (na_janela c converte limite) rs).
Proof.
  induction rs as [| r t IH]; simpl.
  - reflexivity.
  - unfold tem_data at 1. unfold na_janela at 1.
    destruct (converte (get r c)) as [ts |] eqn:E; simpl.
    + rewrite get_anexa_data, E. simpl.
      destruct (limite <=? ts_ns ts)%Z; simpl; now rewrite IH.
    + exact IH.
Qed.

End DateWindow.

Lemma filtro_periodo_converte (L : Bibliotecas) (c : pystr) (p : Periodo)
    (dias agora : Z) (df : DataFrame) (converte : cell -> option Timestamp) :
  truthy c = true ->
  dias_map p = Some dias ->
  to_datetime true (column df c) = Some converte ->
  filtro_periodo (Some c) p agora df
  = if tz_aware_em c converte (rows df)
    then ([AvisoData],
          {| columns := com_coluna df data_convertida;
             rows := map (anexa_data c converte)
                         (filter (tem_data c converte) (rows df)) |})
    else ([],
          {| columns := com_coluna df data_convertida;
             rows := map (anexa_data c converte)
                         (filter (na_janela c converte (data_limite agora dias))
                                 (rows df)) |}).
Proof.
  intros Hc Hp Hconv. unfold filtro_periodo. rewrite Hp, Hc, Hconv.
  unfold dropna_subset, select, column, set_column. simpl.
  fold (anexa_data c converte).
  rewrite dropna_anexa, compara_anexa, desde_anexa. reflexivity.
Qed.

Lemma dias_map_values (p : Periodo) (dias : Z) :
  dias_map p = Some dias -> In dias [7; 15; 30; 90]%Z.
Proof.
  destruct p; simpl; intros E; try discriminate; injection E as <-; tauto.
Qed.

(** C4, as the code has it: with a date column and a window of N days, N
    among 7, 15, 30 and 90, the date filter asks for the day-first conversion
    of the column and, when the conversion and the comparison raise nothing
    (no converted date carries a time zone), it shows no warning, drops every
    row whose date did not parse and keeps exactly the rows whose parsed date
    is at or after now minus N days, each with its parsed date attached.
    Read day first, "03/04/2024" is the third of April. *)
Theorem C4_date_window :
  forall (L : Bibliotecas) (c : pystr) (p : Periodo) (dias agora : Z)
         (df : DataFrame) (converte : cell -> option Timestamp),
    truthy c = true ->
    dias_map p = Some dias ->
    to_datetime true (column df c) = Some converte ->
    tz_aware_em c converte (rows df) = false ->
    filtro_periodo (Some c) p agora df
    = ([], {| columns := com_coluna df data_convertida;
              rows := map (anexa_data c converte)
                          (filter (na_janela c converte (agora - dias * ns_por_dia))
                                  (rows df)) |})
    /\ In dias [7; 15; 30; 90]%Z
    /\ Referencia.parse_barras true (u "03/04/2024")
       = Some {| ts_ns := Referencia.days_from_civil 2024 4 3 * ns_por_dia;
                 ts_aware := false |}.
Proof.
  intros L c p dias agora df converte Hc Hp Hconv Hnaive. repeat split.
  - rewrite (filtro_periodo_converte L c p dias agora df converte Hc Hp Hconv), Hnaive.
    reflexivity.
  - now apply dias_map_values with (p := p).
Qed.

Lemma C4_witness :
  column (snd (filtro_periodo (H := Referencia.referencia) (Some (u "Data"))
                              Ultimos7 Cenario.agora tabela_normalizada))
         (u "Cliente")
  = [CStr (u "Ana")].
Proof.
  rewrite (proj1 (C4_date_window Referencia.referencia (u "Data") Ultimos7 7
                    Cenario.agora tabela_normalizada
                    (Referencia.parse_cell (Referencia.parse_barras true))
                    eq_refl eq_refl eq_refl eq_refl)).
  vm_compute. reflexivity.
Defined.

(** C4, as stated, fails when the dates carry a time zone: the comparison
    with the naive clock raises, the cut-off is not applied, and a row dated
    2020 stays in the result of "Últimos 7 dias" evaluated in March 2024. *)
Lemma C4_counterexample :
  option_map (fun converte => map converte (column tabela_utc (u "Data")))
             (to_datetime (Bibliotecas := Referencia.referencia) true
                          (column tabela_utc (u "Data")))
  = Some [Some {| ts_ns := 18262 * ns_por_dia; ts_aware := true |}]
  /\ (18262 * ns_por_dia < data_limite Cenario.agora 7)%Z
  /\ option_map (fun p => (mensagens p, column (df_filtrado p) (u "Data")))
       (painel (dashboard (H := Referencia.referencia) arquivo_utc ultimos7
                          Cenario.agora carimbo0))
     = Some ([AvisoData], [CStr (u "2020-01-01T00:00:00Z")]).
Proof. repeat split; vm_compute; reflexivity. Qed.

Lemma filter_none {A : Type} (f : A -> bool) (l : list A) :
  (forall x, In x l -> f x = false) -> filter f l = [].
Proof.
  induction l as [| a t IH]; simpl; intros Hall.
  - reflexivity.
  - rewrite (Hall a (or_introl eq_refl)). apply IH.
    intros x Hx. apply Hall. now right.
Qed.

Lemma aplicar_filtros_periodo (L : Bibliotecas) (cd cdata : option pystr)
    (depts sts : list pystr) (p : Periodo) (q : pystr) (agora : Z)
    (df d3 : DataFrame) (avisos : list mensagem) :
  filtro_periodo cdata p agora (filtro_status sts (filtro_departamento cd depts df))
  = (avisos, d3) ->
  aplicar_filtros cd cdata depts sts p q agora df
  = option_map (pair avisos) (filtro_busca q d3).
Proof.
  intros Hp. unfold aplicar_filtros. rewrite Hp.
  destruct (filtro_busca q d3); reflexivity.
Qed.

(** C5, as the code has it: a failure of the date step is an exception
    raised inside it. When the conversion raises, the warning is shown, the
    frame is left as it was and the free-text filter runs on it; when the
    comparison raises (a converted date carries a time zone), the warning is
    shown, the rows whose date parsed stay, with the parsed date attached,
    and the free-text filter runs on them. Dates that merely fail to parse
    raise nothing: when no row has a date that parses, the date filter shows
    no warning and leaves no row. *)
Theorem C5_date_step_failure :
  forall (L : Bibliotecas) (cd : option pystr) (c : pystr) (depts sts : list pystr)
         (p : Periodo) (dias : Z) (q : pystr) (agora : Z) (df : DataFrame),
    truthy c = true ->
    dias_map p = Some dias ->
    let d2 := filtro_status sts (filtro_departamento cd depts df) in
    (to_datetime true (column d2 c) = None ->
     filtro_periodo (Some c) p agora d2 = ([AvisoData], d2)
     /\ aplicar_filtros cd (Some c) depts sts p q agora df
        = option_map (pair [AvisoData]) (filtro_busca q d2))
    /\ (forall converte,
          to_datetime true (column d2 c) = Some converte ->
          tz_aware_em c converte (rows d2) = true ->
          let d3 := {| columns := com_coluna d2 data_convertida;
                       rows := map (anexa_data c converte)
                                   (filter (tem_data c converte) (rows d2)) |} in
          filtro_periodo (Some c) p agora d2 = ([AvisoData], d3)
          /\ aplicar_filtros cd (Some c) depts sts p q agora df
             = option_map (pair [AvisoData]) (filtro_busca q d3))
    /\ (forall converte,
          to_datetime true (column d2 c) = Some converte ->
          (forall r, In r (rows d2) -> converte (get r c) = None) ->
          filtro_periodo (Some c) p agora d2
          = ([], {| columns := com_coluna d2 data_convertida; rows := [] |})).
Proof.
  intros L cd c depts sts p dias q agora df Hc Hp d2.
  split; [| split].
  - intros Hraise.
    assert (Hf : filtro_periodo (Some c) p agora d2 = ([AvisoData], d2))
      by (unfold filtro_periodo; rewrite Hp, Hc, Hraise; reflexivity).
    split; [exact Hf | now apply aplicar_filtros_periodo].
  - intros converte Hconv Haware d3.
    assert (Hf : filtro_periodo (Some c) p agora d2 = ([AvisoData], d3))
      by (rewrite (filtro_periodo_converte L c p dias agora d2 converte Hc Hp Hconv),
            Haware; reflexivity).
    split; [exact Hf | now apply aplicar_filtros_periodo].
  - intros converte Hconv Hnone.
    rewrite (filtro_periodo_converte L c p dias agora d2 converte Hc Hp Hconv).
    assert (Hna : tz_aware_em c converte (rows d2) = false).
    { unfold tz_aware_em. destruct (existsb _ (rows d2)) eqn:E; [| reflexivity].
      apply existsb_exists in E. destruct E as [r [Hr Ht]].
      rewrite (Hnone r Hr) in Ht. discriminate. }
    rewrite Hna. do 2 f_equal. rewrite filter_none; [reflexivity |].
    intros r Hr. unfold na_janela. now rewrite (Hnone r Hr).
Qed.

Lemma C5_witness :
  aplicar_filtros (H := Referencia.referencia) None (Some (u "Data")) [] []
                  Ultimos7 [] Cenario.agora tabela_utc
  = Some ([AvisoData],
          {| columns := columns tabela_utc ++ [data_convertida];
             rows := map (anexa_data (u "Data")
                            (Referencia.parse_cell Referencia.parse_iso_utc))
                         (rows tabela_utc) |}).
Proof.
  rewrite (proj2 (proj1 (proj2
             (C5_date_step_failure Referencia.referencia None (u "Data") [] []
                Ultimos7 7 [] Cenario.agora tabela_utc eq_refl eq_refl))
             (Referencia.parse_cell Referencia.parse_iso_utc) eq_refl eq_refl)).
  vm_compute. reflexivity.
Defined.

(** C5, as stated, fails: when every date of the table is unreadable the
    script shows no date warning and the Filtered Table is empty (the only
    message is the notice that no record was found). *)
Lemma C5_counterexample :
  option_map (fun converte => map converte [CStr (u "ontem"); CStr (u "?")])
             (to_datetime (Bibliotecas := Referencia.referencia) true
                          [CStr (u "ontem"); CStr (u "?")])
  = Some [None; None]
  /\ option_map (fun p => (mensagens p, rows (df_filtrado p)))
       (painel (dashboard (H := Referencia.referencia) arquivo_sem_datas ultimos7
                          Cenario.agora carimbo0))
     = Some ([AvisoSemRegistros], []).
Proof. split; vm_compute; reflexivity. Qed.

(** ** The four filters together *)

Lemma filter_map_comm {A B : Type} (f : B -> bool) (g : A -> B) (l : list A) :
  filter f (map g l) = map g (filter (fun x => f (g x)) l).
Proof.
  induction l as [| a t IH]; simpl.
  - reflexivity.
  - destruct (f (g a)); simpl; now rewrite IH.
Qed.

Lemma filter_filter {A : Type} (f g : A -> bool) (l : list A) :
  filter f (filter g l) = filter (fun x => g x && f x) l.
Proof.
  induction l as [| a t IH]; simpl.
  - reflexivity.
  - destruct (g a); simpl; [destruct (f a) |]; now rewrite IH.
Qed.

Lemma filter_Subseq {A : Type} (f : A -> bool) (l : list A) : Subseq (filter f l) l.
Proof.
  induction l as [| a t IH]; simpl.
  - constructor.
  - destruct (f a); now constructor.
Qed.

Lemma select_ext (f g : Row -> bool) (df : DataFrame) :
  (forall r, In r (rows df) -> f r = g r) -> select f df = select g df.
Proof.
  intros Hext. unfold select. f_equal.
  induction (rows df) as [| a t IH]; simpl.
  - reflexivity.
  - rewrite (Hext a (or_introl eq_refl)). rewrite IH; [reflexivity |].
    intros r Hr. apply Hext. now right.
Qed.

Lemma select_select (f g : Row -> bool) (df : DataFrame) :
  select f (select g df) = select (fun r => g r && f r) df.
Proof. unfold select. simpl. now rewrite filter_filter. Qed.

Lemma filtro_departamento_passa (cd : option pystr) (depts : list pystr)
    (df : DataFrame) :
  filtro_departamento cd depts df = select (passa_departamento cd depts) df.
Proof.
  unfold filtro_departamento, passa_departamento.
  destruct (verdadeiro cd && nao_vazia depts); [reflexivity |].
  symmetry. now apply select_all.
Qed.

Lemma filtro_status_passa (sts : list pystr) (df : DataFrame) :
  filtro_status sts df = select (passa_status sts) df.
Proof.
  unfold filtro_status, passa_status.
  destruct (nao_vazia sts); [reflexivity |].
  symmetry. now apply select_all.
Qed.

Lemma filtro_busca_literal (L : Bibliotecas) (q : pystr) (df : DataFrame) :
  re_literal_law ->
  existsb re_special (str_lower q) = false ->
  filtro_busca q df = Some (select (casa_busca q df) df).
Proof.
  intros Hlaw Hq. unfold filtro_busca, casa_busca.
  destruct (truthy q).
  - destruct (rows df) as [| r t] eqn:E.
    + f_equal. destruct df as [cols rs]. simpl in E. subst rs. reflexivity.
    + destruct (Hlaw (str_lower q) Hq) as [m [Hm Hs]]. rewrite Hm. f_equal.
      apply select_ext. intros r' _.
      induction r' as [| kv r'' IH]; simpl; [reflexivity |].
      now rewrite Hs, IH.
  - f_equal. symmetry. now apply select_all.
Qed.

Lemma busca_forma (L : Bibliotecas) (q : pystr) (df d : DataFrame) :
  filtro_busca q df = Some d -> exists k, rows d = filter k (rows df).
Proof.
  unfold filtro_busca. intros Hb.
  assert (Hid : rows df = filter (fun _ => true) (rows df))
    by (symmetry; now apply filter_all).
  destruct (truthy q).
  - destruct (rows df) as [| r t] eqn:E.
    + injection Hb as <-. exists (fun _ => true). now rewrite E.
    + destruct (re_compile (str_lower q)) as [m |]; [| discriminate].
      injection Hb as <-. eexists. rewrite <- E. reflexivity.
  - injection Hb as <-. now exists (fun _ => true).
Qed.

Lemma mesma_linha_anexa (c : pystr) (converte : cell -> option Timestamp) (r : Row) :
  mesma_linha r (anexa_data c converte r).
Proof. intros col Hcol. now apply get_set_other. Qed.

Lemma periodo_forma (L : Bibliotecas) (cdata : option pystr) (p : Periodo)
    (agora : Z) (df : DataFrame) :
  exists (g : Row -> Row) (k : Row -> bool),
    rows (snd (filtro_periodo cdata p agora df)) = map g (filter k (rows df))
    /\ forall r, mesma_linha r (g r).
Proof.
  assert (Hid : exists (g : Row -> Row) (k : Row -> bool),
             rows df = map g (filter k (rows df)) /\ forall r, mesma_linha r (g r)).
  { exists (fun r => r), (fun _ => true). split.
    - rewrite map_id. symmetry. now apply filter_all.
    - intros r col _. reflexivity. }
  destruct cdata as [c |]; [| exact Hid].
  destruct (dias_map p) as [dias |] eqn:Hp;
    [| unfold filtro_periodo; rewrite Hp; exact Hid].
  destruct (truthy c) eqn:Hc;
    [| unfold filtro_periodo; rewrite Hp, Hc; exact Hid].
  destruct (to_datetime true (column df c)) as [converte |] eqn:Hconv;
    [| unfold filtro_periodo; rewrite Hp, Hc, Hconv; exact Hid].
  rewrite (filtro_periodo_converte L c p dias agora df converte Hc Hp Hconv).
  destruct (tz_aware_em c converte (rows df)); simpl;
    eexists; eexists; (split; [reflexivity | apply mesma_linha_anexa]).
Qed.

Lemma filtro_periodo_inativo (L : Bibliotecas) (cdata : option pystr) (p : Periodo)
    (agora : Z) (df : DataFrame) :
  verdadeiro cdata = false \/ p = TodoPeriodo ->
  filtro_periodo cdata p agora df = ([], df).
Proof.
  intros [Hc | ->]; unfold filtro_periodo.
  - destruct cdata as [c |]; [| reflexivity]. simpl in Hc. rewrite Hc.
    destruct (dias_map p); reflexivity.
  - destruct cdata; reflexivity.
Qed.

Lemma Forall2_mesma_linha_map (g : Row -> Row) (l : list Row) :
  (forall r, mesma_linha r (g r)) -> Forall2 mesma_linha l (map g l).
Proof.
  intros Hg. induction l as [| a t IH]; simpl; constructor; auto.
Qed.

(** C1, as the code has it: the Filtered Table is the input table with rows
    left out and the others in their order, each kept row unchanged but for
    the parsed date the date filter attaches. The department filter, the
    status filter (a selection that is empty lets every row pass) and, when
    the date step raises nothing, the date window keep exactly the rows that
    pass the three together; for a query without [re] operators the
    Filtered Table holds exactly the rows of that table in which the query,
    lower-cased, occurs in the lower-cased text that [astype(str)] gives one
    of their cells in that table, derived ones included. *)
Theorem C1_filtered_table :
  forall (L : Bibliotecas) (cd cdata : option pystr) (depts sts : list pystr)
         (p : Periodo) (q : pystr) (agora : Z) (df : DataFrame),
    (forall avisos d,
        aplicar_filtros cd cdata depts sts p q agora df = Some (avisos, d) ->
        exists kept, Subseq kept (rows df) /\ Forall2 mesma_linha kept (rows d))
    /\ (re_literal_law ->
        existsb re_special (str_lower q) = false ->
        ((verdadeiro cdata = false \/ p = TodoPeriodo) ->
         let d2 := select (fun r => passa_departamento cd depts r
                                    && passa_status sts r) df in
         aplicar_filtros cd cdata depts sts p q agora df
         = Some ([], select (casa_busca q d2) d2))
        /\ (forall c dias converte,
              cdata = Some c -> truthy c = true -> dias_map p = Some dias ->
              let d2 := select (fun r => passa_departamento cd depts r
                                         && passa_status sts r) df in
              to_datetime true (column d2 c) = Some converte ->
              tz_aware_em c converte (rows d2) = false ->
              let d3 := {| columns := com_coluna df data_convertida;
                           rows := map (anexa_data c converte)
                                     (filter (fun r =>
                                        passa_departamento cd depts r
                                        && passa_status sts r
                                        && na_janela c converte
                                             (agora - dias * ns_por_dia) r)
                                        (rows df)) |} in
              aplicar_filtros cd cdata depts sts p q agora df
              = Some ([], select (casa_busca q d3) d3))).
Proof.
  intros L cd cdata depts sts p q agora df.
  assert (Hd2 : filtro_status sts (filtro_departamento cd depts df)
                = select (fun r => passa_departamento cd depts r && passa_status sts r) df)
    by (rewrite filtro_departamento_passa, filtro_status_passa; apply select_select).
  split.
  - intros avisos d Hap. unfold aplicar_filtros in Hap. rewrite Hd2 in Hap.
    destruct (periodo_forma L cdata p agora
                (select (fun r => passa_departamento cd depts r && passa_status sts r) df))
      as [g [k [Hrows Hg]]].
    destruct (filtro_periodo cdata p agora _) as [av d3]. simpl in Hrows.
    destruct (filtro_busca q d3) as [d4 |] eqn:Hb; [| discriminate].
    injection Hap as _ <-.
    destruct (busca_forma L q d3 d4 Hb) as [kb Hd4].
    rewrite Hd4, Hrows, filter_map_comm, !filter_filter.
    eexists. split; [apply filter_Subseq | now apply Forall2_mesma_linha_map].
  - intros Hlaw Hq. split.
    + intros Hoff d2. unfold aplicar_filtros. rewrite Hd2. fold d2.
      rewrite (filtro_periodo_inativo L cdata p agora _ Hoff).
      now rewrite (filtro_busca_literal L q _ Hlaw Hq).
    + intros c dias converte -> Hc Hp d2 Hconv Hnaive d3.
      unfold aplicar_filtros. rewrite Hd2. fold d2.
      rewrite (filtro_periodo_converte L c p dias agora d2 converte Hc Hp Hconv), Hnaive.
      assert (Hd3 : {| columns := com_coluna d2 data_convertida;
                       rows := map (anexa_data c converte)
                                 (filter (na_janela c converte (data_limite agora dias))
                                         (rows d2)) |} = d3).
      { unfold d3, d2, select, data_limite, com_coluna. simpl.
        now rewrite filter_filter. }
      rewrite Hd3. now rewrite (filtro_busca_literal L q _ Hlaw Hq).
Qed.

(** The reference [re] obeys the law of plain patterns. *)

Lemma re_parse_literal (p : pystr) :
  existsb re_special p = false ->
  Referencia.re_parse p = Some (map Referencia.Lit p).
Proof.
  induction p as [| c t IH]; simpl; intros Hp.
  - reflexivity.
  - apply orb_false_elim in Hp. destruct Hp as [Hc Ht].
    rewrite (IH Ht), Hc.
    destruct (c =? 46)%N eqn:E; [| reflexivity].
    apply N.eqb_eq in E. subst c. vm_compute in Hc. discriminate.
Qed.

Lemma match_here_literal (p s : pystr) :
  Referencia.match_here (map Referencia.Lit p) s = startswith p s.
Proof.
  revert s. induction p as [| c t IH]; intros s; simpl.
  - destruct s; reflexivity.
  - destruct s as [| x s']; [reflexivity |]. now rewrite IH.
Qed.

Lemma re_search_literal (p s : pystr) :
  Referencia.re_search (map Referencia.Lit p) s = contains p s.
Proof.
  induction s as [| x s' IH]; simpl; rewrite match_here_literal.
  - reflexivity.
  - now rewrite IH.
Qed.

Lemma referencia_literal : re_literal_law (H := Referencia.referencia).
Proof.
  intros p Hp. simpl. unfold Referencia.re_compile_ref.
  rewrite (re_parse_literal p Hp). eexists. split; [reflexivity |].
  intros s. apply re_search_literal.
Qed.

Lemma C1_witness :
  option_map (fun r => column (snd r) (u "Cliente"))
    (aplicar_filtros (H := Referencia.referencia) (Some (u "Setor"))
       (Some (u "Data")) [u "TI"] [u "Aberta"] Ultimos30 (u "AR") Cenario.agora
       tabela_normalizada)
  = Some [CStr (u "Carla")].
Proof.
  rewrite (proj2 (proj2 (C1_filtered_table Referencia.referencia (Some (u "Setor"))
                           (Some (u "Data")) [u "TI"] [u "Aberta"] Ultimos30
                           (u "AR") Cenario.agora tabela_normalizada)
                        referencia_literal eq_refl)
                 (u "Data") 30%Z
                 (Referencia.parse_cell (Referencia.parse_barras true))
                 eq_refl eq_refl eq_refl eq_refl eq_refl).
  vm_compute. reflexivity.
Defined.

(** C1, as stated, fails: with no department selected no row of the
    scenario table is in a selected department, yet the Filtered Table has
    the three rows. *)
Lemma C1_counterexample :
  dept_selecionados (Some (u "Setor")) sem_departamentos tabela_normalizada = []
  /\ filter (fun r => pred_departamento (Some (u "Setor")) [] r
                      && pred_status (todos_status tabela_normalizada) r
                      && pred_busca (H := Referencia.referencia) [] r)
            (rows tabela_normalizada) = []
  /\ option_map (fun p => column (df_filtrado p) (u "Cliente"))
       (painel (dashboard (H := Referencia.referencia) Cenario.arquivo
                          sem_departamentos Cenario.agora carimbo0))
     = Some [CStr (u "Ana"); CStr (u "Bruno"); CStr (u "Carla")].
Proof. repeat split; vm_compute; reflexivity. Qed.

(** ** The free-text filter *)

(** C6 at a failing input: the query is handed to [re] as a pattern. The
    query "." occurs in no cell of the scenario table, yet every row is
    kept, since the pattern matches any character; the query "(" is no
    pattern at all and the run ends in the exception. *)
Theorem C6_query_is_a_pattern :
  existsb (pred_busca (H := Referencia.referencia) (u ".")) (rows tabela_normalizada)
  = false
  /\ option_map (fun p => column (df_filtrado p) (u "Cliente"))
       (painel (dashboard (H := Referencia.referencia) Cenario.arquivo
                          (com_busca ".") Cenario.agora carimbo0))
     = Some [CStr (u "Ana"); CStr (u "Bruno"); CStr (u "Carla")]
  /\ dashboard (H := Referencia.referencia) Cenario.arquivo (com_busca "(")
               Cenario.agora carimbo0
     = Excecao.
Proof. repeat split; vm_compute; reflexivity. Qed.

(** ** The temporal chart *)

(** C7 at a failing input: the scenario table has a date column and, in
    the default period "Todo o período", three rows in three distinct (date,
    status) groups, but no chart is drawn, because the parsed-date column
    only exists once a period is selected; with "Últimos 90 dias" the same
    three rows do give the chart. *)
Theorem C7_no_chart_for_all_time :
  col_data (columns Cenario.tabela) = Some (u "Data")
  /\ option_map (fun p => List.length (grupos_por_data (H := Referencia.referencia)
                                         (u "Data") (df_filtrado p)))
       (painel (dashboard (H := Referencia.referencia) Cenario.arquivo Cenario.tudo
                          Cenario.agora carimbo0))
     = Some 3
  /\ option_map temporal
       (painel (dashboard (H := Referencia.referencia) Cenario.arquivo Cenario.tudo
                          Cenario.agora carimbo0))
     = Some false
  /\ option_map (fun p => (List.length (rows (df_filtrado p)), temporal p))
       (painel (dashboard (H := Referencia.referencia) Cenario.arquivo ultimos90
                          Cenario.agora carimbo0))
     = Some (3, true).
Proof. repeat split; vm_compute; reflexivity. Qed.

(** ** Export and reload *)




Lemma get_filter_kept (kept : list pystr) (r : Row) (c : pystr) :
  isin c kept = true ->
  get (filter (fun kv : pystr * cell => isin (fst kv) kept) r) c = get r c.
Proof.
  intros Hc. induction r as [| [k v] t IH]; simpl.
  - reflexivity.
  - destruct (eqb k c) eqn:E.
    + apply eqb_eq in E. subst k. rewrite Hc. simpl. now rewrite eqb_refl.
    + destruct (isin k kept); simpl; [rewrite E |]; exact IH.
Qed.

Lemma dropna_columns_In (df : DataFrame) (c : pystr) :
  In c (columns (dropna_columns df)) <-> In c (columns df) /\ tem_valor df c = true.
Proof. unfold dropna_columns. simpl. apply filter_In. Qed.






(** ** Counts *)


Section GruposFacts.

Context {K : Type}.
Variables (keq kle : K -> K -> bool).
Hypothesis keq_spec : forall a b, keq a b = true <-> a = b.

Lemma In_distintos_por (x : K) (l : list K) :
  In x (distintos_por keq l) <-> In x l.
Proof.
  induction l as [| y t IH]; simpl.
  - tauto.
  - rewrite filter_In, IH. destruct (keq y x) eqn:E; simpl.
    + apply keq_spec in E. subst. intuition congruence.
    + assert (y <> x) by (intros ->; rewrite (proj2 (keq_spec x x) eq_refl) in E;
                          discriminate).
      intuition congruence.
Qed.

Lemma NoDup_distintos_por (l : list K) : NoDup (distintos_por keq l).
Proof.
  induction l as [| y t IH]; simpl; constructor.
  - rewrite filter_In. intros [_ Hy].
    rewrite (proj2 (keq_spec y y) eq_refl) in Hy. discriminate.
  - now apply NoDup_filter.
Qed.

Lemma In_inserir (x y : K) (l : list K) :
  In x (inserir kle y l) <-> y = x \/ In x l.
Proof.
  induction l as [| z t IH]; simpl.
  - tauto.
  - destruct (kle y z); simpl; [tauto | rewrite IH; tauto].
Qed.

Lemma In_ordenar (x : K) (l : list K) : In x (ordenar kle l) <-> In x l.
Proof.
  induction l as [| y t IH]; simpl.
  - tauto.
  - rewrite In_inserir, IH. tauto.
Qed.

Lemma NoDup_inserir (y : K) (l : list K) :
  ~ In y l -> NoDup l -> NoDup (inserir kle y l).
Proof.
  induction l as [| z t IH]; simpl; intros Hy Hl.
  - constructor; [intros [] | constructor].
  - destruct (kle y z).
    + constructor; [exact Hy | exact Hl].
    + inversion Hl as [| ? ? Hz Ht]; subst. constructor.
      * rewrite In_inserir. intros [-> | Hin]; [apply Hy; now left | now apply Hz].
      * apply IH; [intros Hin; apply Hy; now right | exact Ht].
Qed.

Lemma NoDup_ordenar (l : list K) : NoDup l -> NoDup (ordenar kle l).
Proof.
  induction l as [| y t IH]; simpl; intros Hl.
  - constructor.
  - inversion Hl as [| ? ? Hy Ht]; subst.
    apply NoDup_inserir; [now rewrite In_ordenar | now apply IH].
Qed.

Hypothesis kle_total : forall a b, kle a b = false -> kle b a = true.

Lemma Sorted_inserir (y : K) (l : list K) :
  Sorted (fun a b => kle a b = true) l ->
  Sorted (fun a b => kle a b = true) (inserir kle y l).
Proof.
  induction l as [| z t IH]; simpl; intros Hl.
  - repeat constructor.
  - destruct (kle y z) eqn:E.
    + constructor; [exact Hl | now constructor].
    + inversion Hl as [| ? ? Ht Hz]; subst. constructor; [now apply IH |].
      destruct t as [| w t']; simpl.
      * constructor. now apply kle_total.
      * destruct (kle y w); constructor; [now apply kle_total |].
        now inversion Hz.
Qed.

Lemma Sorted_ordenar (l : list K) : Sorted (fun a b => kle a b = true) (ordenar kle l).
Proof.
  induction l as [| y t IH]; simpl; [constructor | now apply Sorted_inserir].
Qed.

(** The sizes of the groups of distinct keys add up to the elements that
    have one of the keys. *)
Lemma soma_tamanhos (ks m : list K) :
  NoDup ks ->
  fold_right (fun k acc => List.length (filter (keq k) m) + acc) 0 ks
  = List.length (filter (fun y => existsb (fun k => keq k y) ks) m).
Proof.
  induction ks as [| k ks' IH]; simpl; intros Hnd.
  - induction m as [| y t IHm]; simpl; [reflexivity | exact IHm].
  - inversion Hnd as [| ? ? Hk Hks]; subst. rewrite (IH Hks).
    clear IH. induction m as [| y t IHm]; simpl; [reflexivity |].
    destruct (keq k y) eqn:E; simpl.
    + apply keq_spec in E. subst y.
      assert (Hx : existsb (fun k0 => keq k0 k) ks' = false).
      { destruct (existsb _ ks') eqn:Ex; [| reflexivity].
        apply existsb_exists in Ex. destruct Ex as [z [Hz Hzk]].
        apply keq_spec in Hzk. subst z. contradiction. }
      rewrite Hx. simpl. rewrite <- IHm. lia.
    + destruct (existsb (fun k0 => keq k0 y) ks'); simpl; rewrite <- IHm; lia.
Qed.

End GruposFacts.

Lemma leb_total (a b : pystr) : leb a b = false -> leb b a = true.
Proof.
  revert b. induction a as [| x a' IH]; intros b; simpl.
  - discriminate.
  - destruct b as [| y b']; simpl; [reflexivity |].
    intros Hab. apply orb_false_elim in Hab. destruct Hab as [Hlt Hrest].
    apply N.ltb_ge in Hlt.
    destruct (y <? x)%N eqn:Hyx; [reflexivity |]. simpl.
    apply N.ltb_ge in Hyx. assert (x = y) by lia. subst y.
    rewrite N.eqb_refl in *. simpl in *. now apply IH.
Qed.

Lemma par_eqb_eq (a b : pystr * pystr) : par_eqb a b = true <-> a = b.
Proof.
  destruct a as [a1 a2], b as [b1 b2]. unfold par_eqb. simpl.
  rewrite andb_true_iff, !eqb_eq. split; [intros [-> ->]; reflexivity |].
  intros E. now injection E.
Qed.

Lemma total_tamanhos (l : list pystr) : total (tamanhos eqb leb l) = List.length l.
Proof.
  unfold tamanhos.
  assert (Hsum : forall ks,
             total (map (fun k => (k, List.length (filter (eqb k) l))) ks)
             = fold_right (fun k acc => List.length (filter (eqb k) l) + acc) 0 ks).
  { induction ks as [| k t IH]; simpl; [reflexivity | now rewrite IH]. }
  rewrite Hsum, (soma_tamanhos eqb eqb_eq).
  - f_equal. apply filter_all. intros y Hy. apply existsb_exists.
    exists y. split; [| apply eqb_refl].
    apply In_ordenar. now apply (In_distintos_por eqb leb eqb_eq).
  - apply NoDup_ordenar. apply (NoDup_distintos_por eqb eqb_eq).
Qed.

Lemma strings_of_texto (df : DataFrame) (col : pystr) :
  (forall r, In r (rows df) -> exists s, get r col = CStr s) ->
  List.length (strings_of (column df col)) = List.length (rows df).
Proof.
  unfold column. induction (rows df) as [| r t IH]; simpl; intros Hall.
  - reflexivity.
  - destruct (Hall r (or_introl eq_refl)) as [s ->]. simpl.
    f_equal. apply IH. intros r' Hr'. apply Hall. now right.
Qed.

Lemma In_strings_of (s : pystr) (cs : list cell) :
  In s (strings_of cs) <-> In (CStr s) cs.
Proof.
  unfold strings_of. rewrite in_flat_map. split.
  - intros [c [Hc Hs]]. destruct c; simpl in Hs; try contradiction.
    destruct Hs as [-> | []]. exact Hc.
  - intros Hc. exists (CStr s). split; [exact Hc | now left].
Qed.

(** ** What every rendered page has *)

Lemma dashboard_renderizou (L : Bibliotecas) (file : Upload) (w : Widgets)
    (agora : Z) (carimbo : pystr) (p : Painel) :
  dashboard file w agora carimbo = Renderizou p ->
  exists df cs avisos,
    carregar_dados file = ([], Some df)
    /\ empty df = false
    /\ col_status (columns df) = Some cs
    /\ truthy cs = true
    /\ aplicar_filtros (col_departamento (columns df)) (col_data (columns df))
         (dept_selecionados (col_departamento (columns df)) w
            (normalizar cs (col_departamento (columns df)) df))
         (status_selecionados w (com_status cs df))
         (periodo (col_data (columns df)) w) (busca w) agora
         (normalizar cs (col_departamento (columns df)) df)
       = Some (avisos, df_filtrado p)
    /\ grafico_temporal (col_data (columns df)) (df_filtrado p) = Some (temporal p)
    /\ mensagens p = avisos ++ match contagem_status (df_filtrado p) with
                               | [] => [AvisoSemRegistros]
                               | _ :: _ => []
                               end
    /\ csv p = exportar carimbo (df_filtrado p).
Proof.
  unfold dashboard, carregar_dados. intros Hd.
  destruct (if endswith (u ".csv") (name file)
            then tentar_csv encodings file else read_excel file) as [df0 |];
    [| discriminate].
  destruct (empty (dropna_columns df0)) eqn:Hemp; [discriminate |].
  destruct (col_status (columns (dropna_columns df0))) as [cs |] eqn:Hcs;
    [| discriminate].
  destruct (truthy cs) eqn:Htr; simpl in Hd; [| discriminate].
  fold (normalizar cs (col_departamento (columns (dropna_columns df0)))
                   (dropna_columns df0)) in Hd.
  destruct (aplicar_filtros _ _ _ _ _ _ _ _) as [[avisos filtrado] |] eqn:Hap;
    [| discriminate].
  destruct (grafico_temporal _ filtrado) as [g |] eqn:Hg; [| discriminate].
  injection Hd as <-. simpl.
  exists (dropna_columns df0), cs, avisos. repeat split; assumption.
Qed.

Lemma nomes_derivados_distintos :
  status_normalizado <> departamento_normalizado
  /\ status_normalizado <> data_convertida
  /\ departamento_normalizado <> data_convertida.
Proof. repeat split; apply eqb_neq; vm_compute; reflexivity. Qed.

Lemma texto_derivado_normalizar (L : Bibliotecas) (cs : pystr) (cd : option pystr)
    (df : DataFrame) :
  texto_derivado (normalizar cs cd df).
Proof.
  destruct nomes_derivados_distintos as [Hsd _].
  intros r Hr. unfold normalizar, com_departamento, com_status in Hr.
  destruct (verdadeiro cd) eqn:Hv; [destruct cd as [c |]; [| discriminate] |];
    unfold set_column in Hr; simpl in Hr; rewrite map_map in Hr;
    apply in_map_iff in Hr; destruct Hr as [r0 [<- _]];
    (split; [rewrite get_set_other by exact Hsd; rewrite get_set_same
            | rewrite get_set_same]); eexists; reflexivity.
Qed.

Lemma aplicar_filtros_forma (L : Bibliotecas) (cd cdata : option pystr)
    (depts sts : list pystr) (p : Periodo) (q : pystr) (agora : Z)
    (df d : DataFrame) (avisos : list mensagem) :
  aplicar_filtros cd cdata depts sts p q agora df = Some (avisos, d) ->
  exists (g : Row -> Row) (k : Row -> bool),
    rows d = map g (filter k (rows df)) /\ forall r, mesma_linha r (g r).
Proof.
  intros Hap. unfold aplicar_filtros in Hap.
  rewrite filtro_departamento_passa, filtro_status_passa, select_select in Hap.
  destruct (periodo_forma L cdata p agora
              (select (fun r => passa_departamento cd depts r && passa_status sts r) df))
    as [g [k [Hrows Hg]]].
  destruct (filtro_periodo cdata p agora _) as [av d3]. simpl in Hrows.
  destruct (filtro_busca q d3) as [d4 |] eqn:Hb; [| discriminate].
  injection Hap as _ <-.
  destruct (busca_forma L q d3 d4 Hb) as [kb Hd4].
  exists g. eexists. split; [| exact Hg].
  rewrite Hd4, Hrows, filter_map_comm, !filter_filter. reflexivity.
Qed.

Lemma texto_derivado_filtros (L : Bibliotecas) (cd cdata : option pystr)
    (depts sts : list pystr) (p : Periodo) (q : pystr) (agora : Z)
    (df d : DataFrame) (avisos : list mensagem) :
  aplicar_filtros cd cdata depts sts p q agora df = Some (avisos, d) ->
  texto_derivado df -> texto_derivado d.
Proof.
  intros Hap Hdf.
  destruct nomes_derivados_distintos as [_ [Hs Hd]].
  destruct (aplicar_filtros_forma L cd cdata depts sts p q agora df d avisos Hap)
    as [g [k [Hrows Hg]]].
  intros r Hr. rewrite Hrows in Hr. apply in_map_iff in Hr.
  destruct Hr as [r0 [<- Hr0]]. apply filter_In in Hr0. destruct Hr0 as [Hr0 _].
  rewrite (Hg r0 status_normalizado Hs), (Hg r0 departamento_normalizado Hd).
  now apply Hdf.
Qed.

Lemma columns_filtro_periodo (L : Bibliotecas) (cdata : option pystr) (p : Periodo)
    (agora : Z) (df : DataFrame) :
  columns (snd (filtro_periodo cdata p agora df)) = columns df
  \/ columns (snd (filtro_periodo cdata p agora df)) = com_coluna df data_convertida.
Proof.
  destruct cdata as [c |]; [| now left].
  destruct (dias_map p) as [dias |] eqn:Hp;
    [| unfold filtro_periodo; rewrite Hp; now left].
  destruct (truthy c) eqn:Hc;
    [| unfold filtro_periodo; rewrite Hp, Hc; now left].
  destruct (to_datetime true (column df c)) as [converte |] eqn:Hconv;
    [| unfold filtro_periodo; rewrite Hp, Hc, Hconv; now left].
  rewrite (filtro_periodo_converte L c p dias agora df converte Hc Hp Hconv).
  destruct (tz_aware_em c converte (rows df)); now right.
Qed.

Lemma columns_filtro_busca (L : Bibliotecas) (q : pystr) (df d : DataFrame) :
  filtro_busca q df = Some d -> columns d = columns df.
Proof.
  unfold filtro_busca. intros Hb.
  destruct (truthy q); [| injection Hb as <-; reflexivity].
  destruct (rows df); [injection Hb as <-; reflexivity |].
  destruct (re_compile (str_lower q)); [injection Hb as <-; reflexivity | discriminate].
Qed.

Lemma columns_filtros (L : Bibliotecas) (cd cdata : option pystr)
    (depts sts : list pystr) (p : Periodo) (q : pystr) (agora : Z)
    (df d : DataFrame) (avisos : list mensagem) :
  aplicar_filtros cd cdata depts sts p q agora df = Some (avisos, d) ->
  columns d = columns df \/ columns d = com_coluna df data_convertida.
Proof.
  intros Hap. unfold aplicar_filtros in Hap.
  rewrite filtro_departamento_passa, filtro_status_passa, select_select in Hap.
  pose proof (columns_filtro_periodo L cdata p agora
                (select (fun r => passa_departamento cd depts r && passa_status sts r) df))
    as Hcols.
  destruct (filtro_periodo cdata p agora _) as [av d3]. simpl in Hcols.
  destruct (filtro_busca q d3) as [d4 |] eqn:Hb; [| discriminate].
  injection Hap as _ <-. rewrite (columns_filtro_busca L q d3 d4 Hb).
  exact Hcols.
Qed.

Lemma In_com_coluna (df : DataFrame) (col c : pystr) :
  In c (com_coluna df col) <-> In c (columns df) \/ c = col.
Proof.
  unfold com_coluna. destruct (isin col (columns df)) eqn:E.
  - apply isin_In in E. split; [now left | intros [Hc | ->]; assumption].
  - rewrite in_app_iff. simpl. intuition congruence.
Qed.

Lemma columns_set_column_iff (df : DataFrame) (col : pystr) (f : Row -> cell)
    (c : pystr) :
  In c (columns (set_column df col f)) <-> In c (columns df) \/ c = col.
Proof. exact (In_com_coluna df col c). Qed.

Lemma pagina_forma :
  forall (L : Bibliotecas) (file : Upload) (w : Widgets) (agora : Z)
         (carimbo : pystr) (p : Painel),
    dashboard file w agora carimbo = Renderizou p ->
    texto_derivado (df_filtrado p)
    /\ In status_normalizado (columns (df_filtrado p))
    /\ In departamento_normalizado (columns (df_filtrado p))
    /\ forall df, carregar_dados file = ([], Some df) ->
         (forall c, In c (columns df) -> In c (columns (df_filtrado p)))
         /\ (forall c, In c (columns (df_filtrado p)) ->
               In c (columns df) \/ In c colunas_internas).
Proof.
  intros L file w agora carimbo p Hd.
  destruct (dashboard_renderizou L file w agora carimbo p Hd)
    as [df [cs [avisos [Hload [_ [_ [_ [Hap _]]]]]]]].
  set (cd := col_departamento (columns df)) in *.
  assert (Hn : forall c, In c (columns (normalizar cs cd df)) <->
                         In c (columns df) \/ c = status_normalizado
                         \/ c = departamento_normalizado).
  { intros c. unfold normalizar, com_departamento, com_status.
    destruct (verdadeiro cd) eqn:Hv; [destruct cd as [d |]; [| discriminate] |];
      rewrite !columns_set_column_iff; tauto. }
  assert (Hcols : forall c, In c (columns (df_filtrado p)) <->
                            In c (columns (normalizar cs cd df)) \/
                            (c = data_convertida /\
                             columns (df_filtrado p)
                             = com_coluna (normalizar cs cd df) data_convertida)).
  { intros c.
    destruct (columns_filtros L _ _ _ _ _ _ _ _ _ _ Hap) as [E | E]; rewrite E.
    - split; [now left | intros [Hc | [-> E']]; [exact Hc |]].
      rewrite E'. apply In_com_coluna. now right.
    - rewrite In_com_coluna. tauto. }
  split; [| split; [| split]].
  - eapply texto_derivado_filtros; [exact Hap | apply texto_derivado_normalizar].
  - apply Hcols. left. apply Hn. tauto.
  - apply Hcols. left. apply Hn. tauto.
  - intros df' Hload'. rewrite Hload in Hload'. injection Hload' as <-. split.
    + intros c Hc. apply Hcols. left. apply Hn. now left.
    + intros c Hc. apply Hcols in Hc. unfold colunas_internas. simpl.
      destruct Hc as [Hc | [-> _]]; [apply Hn in Hc |]; intuition congruence.
Qed.

(** X1: on every page that is rendered, each row of the Filtered Table has
    text in both derived columns, the Filtered Table still has every column
    of the loaded table and the two derived ones, and its only possible
    further column is the parsed date. *)
Theorem X1_filtered_table_shape :
  forall (L : Bibliotecas) (file : Upload) (w : Widgets) (agora : Z)
         (carimbo : pystr) (p : Painel),
    dashboard file w agora carimbo = Renderizou p ->
    texto_derivado (df_filtrado p)
    /\ In status_normalizado (columns (df_filtrado p))
    /\ In departamento_normalizado (columns (df_filtrado p))
    /\ forall df, carregar_dados file = ([], Some df) ->
         (forall c, In c (columns df) -> In c (columns (df_filtrado p)))
         /\ (forall c, In c (columns (df_filtrado p)) ->
               In c (columns df) \/ In c colunas_internas).
Proof. exact pagina_forma. Qed.

Lemma X1_witness :
  match dashboard (H := Referencia.referencia) Cenario.arquivo Cenario.tudo
                  Cenario.agora carimbo0 with
  | Renderizou p => In status_normalizado (columns (df_filtrado p))
                    /\ In departamento_normalizado (columns (df_filtrado p))
  | _ => False
  end.
Proof.
  destruct (dashboard (H := Referencia.referencia) Cenario.arquivo Cenario.tudo
                      Cenario.agora carimbo0) as [ms | | p] eqn:E;
    [vm_compute in E; discriminate | vm_compute in E; discriminate |].
  destruct (X1_filtered_table_shape Referencia.referencia Cenario.arquivo
              Cenario.tudo Cenario.agora carimbo0 p E) as [_ [Hs [Hd _]]].
  split; assumption.
Defined.

Lemma conta_positiva (s : pystr) (l : list pystr) :
  0 < List.length (filter (eqb s) l) <-> In s l.
Proof.
  induction l as [| y t IH]; simpl.
  - split; [lia | tauto].
  - destruct (eqb s y) eqn:E; simpl.
    + apply eqb_eq in E. subst y. split; [now left | lia].
    + apply eqb_neq in E. rewrite IH. intuition congruence.
Qed.

Lemma conta_linhas (s : pystr) (df : DataFrame) (col : pystr) :
  List.length (filter (eqb s) (strings_of (column df col)))
  = List.length (filter (fun r => cell_isin (get r col) [s]) (rows df)).
Proof.
  unfold column. induction (rows df) as [| r t IH]; simpl.
  - reflexivity.
  - destruct (get r col) as [s' | | | |]; simpl; try exact IH.
    rewrite orb_false_r.
    destruct (eqb s s') eqn:E.
    + apply eqb_eq in E. subst s'. rewrite eqb_refl. simpl. now rewrite IH.
    + apply eqb_neq in E.
      destruct (eqb s' s) eqn:E'; [apply eqb_eq in E'; congruence | exact IH].
Qed.

(** X2: the counts of a derived column ([value_counts().sort_index()]) list
    each value that occurs exactly once, in ascending order, with the number
    of rows that have it, which is never zero. *)
Theorem X2_counts_entries :
  forall (df : DataFrame) (col : pystr),
    Sorted (fun a b => leb a b = true) (map fst (contagem df col))
    /\ NoDup (map fst (contagem df col))
    /\ forall s n,
         In (s, n) (contagem df col) <->
         n = List.length (filter (fun r => cell_isin (get r col) [s]) (rows df))
         /\ 0 < n.
Proof.
  intros df col. unfold contagem, tamanhos. rewrite map_map. simpl. rewrite map_id.
  split; [| split].
  - apply Sorted_ordenar. exact leb_total.
  - apply NoDup_ordenar. apply (NoDup_distintos_por eqb eqb_eq).
  - intros s n. rewrite in_map_iff. rewrite <- conta_linhas. split.
    + intros [k [E Hk]]. injection E as -> <-. split; [reflexivity |].
      apply conta_positiva. apply (proj1 (In_ordenar leb _ _)) in Hk.
      exact (proj1 (In_distintos_por eqb leb eqb_eq _ _) Hk).
    + intros [-> Hpos]. exists s. split; [reflexivity |].
      apply In_ordenar. apply (In_distintos_por eqb leb eqb_eq).
      now apply conta_positiva.
Qed.

(** X3: on every page that is rendered, the status counts add up to the
    number of rows of the Filtered Table, and so do the department counts. *)
Theorem X3_counts_total :
  forall (L : Bibliotecas) (file : Upload) (w : Widgets) (agora : Z)
         (carimbo : pystr) (p : Painel),
    dashboard file w agora carimbo = Renderizou p ->
    total (contagem_status (df_filtrado p)) = List.length (rows (df_filtrado p))
    /\ total (contagem_dept (df_filtrado p)) = List.length (rows (df_filtrado p)).
Proof.
  intros L file w agora carimbo p Hd.
  destruct (dashboard_renderizou L file w agora carimbo p Hd)
    as [df [cs [avisos [_ [_ [_ [_ [Hap _]]]]]]]].
  assert (Ht : texto_derivado (df_filtrado p))
    by (eapply texto_derivado_filtros;
        [exact Hap | apply texto_derivado_normalizar]).
  unfold contagem_status, contagem_dept, contagem. rewrite !total_tamanhos.
  split; apply strings_of_texto; intros r Hr; now apply Ht.
Qed.

Lemma X3_witness :
  match dashboard (H := Referencia.referencia) Cenario.arquivo Cenario.tudo
                  Cenario.agora carimbo0 with
  | Renderizou p =>
      contagem_status (df_filtrado p) = [(u "Aberta", 2); (u "Concluída", 1)]
      /\ total (contagem_status (df_filtrado p)) = List.length (rows (df_filtrado p))
  | _ => False
  end.
Proof.
  destruct (dashboard (H := Referencia.referencia) Cenario.arquivo Cenario.tudo
                      Cenario.agora carimbo0) as [ms | | p] eqn:E;
    [vm_compute in E; discriminate | vm_compute in E; discriminate |].
  split.
  - vm_compute in E. injection E as <-. vm_compute. reflexivity.
  - exact (proj1 (X3_counts_total Referencia.referencia Cenario.arquivo
                    Cenario.tudo Cenario.agora carimbo0 p E)).
Defined.

(** ** Cards *)

Lemma firstn_add_skipn {A : Type} (a b : nat) (l : list A) :
  firstn (a + b) l = firstn a l ++ firstn b (skipn a l).
Proof.
  revert l. induction a as [| a IH]; intros l; simpl.
  - reflexivity.
  - destruct l as [| x t]; simpl.
    + now rewrite firstn_nil.
    + now rewrite IH.
Qed.

Lemma iloc_step {A : Type} (l : list A) (i k : nat) :
  iloc l i (i + k) = firstn k (skipn i l).
Proof. unfold iloc. f_equal. lia. Qed.

Lemma concat_fatias {A : Type} (l : list A) (k m : nat) :
  List.concat (map (fun i => iloc l i (i + k)) (map (fun q => q * k) (seq 0 m)))
  = firstn (m * k) l.
Proof.
  induction m as [| m IH].
  - reflexivity.
  - rewrite seq_S, !map_app, concat_app, IH. simpl.
    rewrite app_nil_r, iloc_step.
    replace (k + m * k) with (m * k + k) by lia.
    now rewrite firstn_add_skipn.
Qed.

Lemma fatias_cobrem (n k : nat) : 0 < k -> n <= (n + k - 1) / k * k.
Proof.
  intros Hk.
  pose proof (Nat.div_mod_eq (n + k - 1) k) as Hdm.
  pose proof (Nat.mod_upper_bound (n + k - 1) k) as Hub.
  nia.
Qed.

Lemma fatias_dentro (n k q : nat) :
  0 < k -> q < (n + k - 1) / k -> q * k < n.
Proof.
  intros Hk Hq.
  pose proof (Nat.div_mod_eq (n + k - 1) k) as Hdm.
  nia.
Qed.

Lemma concat_range_step {A : Type} (l : list A) (k : nat) :
  0 < k ->
  List.concat (map (fun i => iloc l i (i + k)) (range_step (List.length l) k)) = l.
Proof.
  intros Hk. unfold range_step. rewrite concat_fatias.
  apply firstn_all2. now apply fatias_cobrem.
Qed.

Lemma cols_por_linha_bounds (maximo num : nat) :
  0 < maximo -> 0 < cols_por_linha maximo num <= maximo.
Proof.
  intros Hm. unfold cols_por_linha.
  destruct (0 <? num) eqn:E; [apply Nat.ltb_lt in E |]; lia.
Qed.

Section CardsFacts.

Variables (maximo : nat) (pinta : nat -> pystr -> pystr).

Lemma cards_numerados (a : nat) (fatia : list (pystr * nat)) :
  map (fun c => (titulo c, quantidade c))
      (map (faz_card pinta) (combine (seq a (List.length fatia)) fatia)) = fatia.
Proof.
  revert a. induction fatia as [| [s n] t IH]; intros a; simpl.
  - reflexivity.
  - now rewrite IH.
Qed.

Lemma cards_cores (a : nat) (fatia : list (pystr * nat)) (j : nat) (c : Card) :
  nth_error (map (faz_card pinta) (combine (seq a (List.length fatia)) fatia)) j = Some c ->
  cor c = pinta (a + j) (titulo c) /\ j < List.length fatia.
Proof.
  revert a j. induction fatia as [| [s n] t IH]; intros a j; simpl.
  - destruct j; discriminate.
  - destruct j as [| j]; simpl.
    + intros E. injection E as <-. simpl. rewrite Nat.add_0_r. split; [reflexivity | lia].
    + intros E. destruct (IH (S a) j E) as [Hc Hj].
      rewrite Hc. split; [f_equal; lia | lia].
Qed.

Lemma cards_lidos (serie : list (pystr * nat)) :
  0 < maximo ->
  map (fun c => (titulo c, quantidade c)) (List.concat (cards maximo pinta serie)) = serie.
Proof.
  intros Hm. unfold cards.
  set (k := cols_por_linha maximo (List.length serie)).
  assert (Hk : 0 < k) by apply (cols_por_linha_bounds maximo _ Hm).
  transitivity (List.concat (map (fun i => iloc serie i (i + k))
                                 (range_step (List.length serie) k)));
    [| now apply concat_range_step].
  rewrite concat_map, map_map. f_equal. apply map_ext.
  intros i. apply cards_numerados.
Qed.

Lemma cards_linhas (serie : list (pystr * nat)) (linha : list Card) :
  0 < maximo ->
  In linha (cards maximo pinta serie) ->
  exists fatia,
    linha = map (faz_card pinta) (combine (seq 0 (List.length fatia)) fatia)
    /\ 0 < List.length fatia <= maximo.
Proof.
  intros Hm Hin. unfold cards in Hin.
  set (k := cols_por_linha maximo (List.length serie)) in *.
  destruct (cols_por_linha_bounds maximo (List.length serie) Hm) as [Hk Hkm].
  fold k in Hk, Hkm.
  apply in_map_iff in Hin. destruct Hin as [i [<- Hi]].
  unfold range_step in Hi. apply in_map_iff in Hi. destruct Hi as [q [<- Hq]].
  apply in_seq in Hq.
  assert (Hlt : q * k < List.length serie) by (apply fatias_dentro; lia).
  rewrite iloc_step. eexists. split; [reflexivity |].
  rewrite length_firstn, length_skipn. lia.
Qed.

Lemma cards_cor_por_lugar (f : nat -> pystr) (a : nat) (fatia : list (pystr * nat)) :
  map cor (map (faz_card (fun j _ => f j)) (combine (seq a (List.length fatia)) fatia))
  = map f (seq a (List.length fatia)).
Proof.
  revert a. induction fatia as [| sq t IH]; intros a; simpl.
  - reflexivity.
  - now rewrite IH.
Qed.

End CardsFacts.

(** X4: the status cards, read row by row, are the status counts in their
    order, one card per entry; every row has at least one card and at most
    six; and each card has the colour that [cor_status] gives its label. *)
Theorem X4_status_cards :
  forall df : DataFrame,
    map (fun c => (titulo c, quantidade c)) (List.concat (cards_status df))
    = contagem_status df
    /\ Forall (fun linha => 0 < List.length linha <= 6) (cards_status df)
    /\ Forall (fun c => cor c = cor_status (titulo c)) (List.concat (cards_status df)).
Proof.
  intros df. unfold cards_status. split; [| split].
  - apply cards_lidos. lia.
  - apply Forall_forall. intros linha Hin.
    destruct (cards_linhas 6 _ _ linha ltac:(lia) Hin) as [fatia [-> Hlen]].
    rewrite length_map, length_combine, length_seq. lia.
  - apply Forall_forall. intros c Hc. apply in_concat in Hc.
    destruct Hc as [linha [Hin Hc]].
    destruct (cards_linhas 6 _ _ linha ltac:(lia) Hin) as [fatia [-> _]].
    apply in_map_iff in Hc. destruct Hc as [jsq [<- _]]. reflexivity.
Qed.

Lemma paleta_do_inicio (n : nat) :
  n <= 5 ->
  map (fun j => nth (j mod List.length cores_base) cores_base []) (seq 0 n)
  = firstn n cores_base.
Proof.
  intros Hn. do 6 (destruct n as [| n]; [reflexivity |]). lia.
Qed.

(** X5: the department cards exist only with a department column and a
    Filtered Table that has rows; read row by row they are the department
    counts in their order; every row has at least one card and at most five,
    and is coloured with the palette from its first colour on, whatever came
    in the rows before, so only the first five colours of the palette are
    ever used. *)
Theorem X5_department_cards :
  forall (cd : option pystr) (df : DataFrame),
    Forall (fun linha => 0 < List.length linha <= 5
                         /\ map cor linha = firstn (List.length linha) cores_base)
           (cards_dept cd df)
    /\ (verdadeiro cd = true -> rows df <> [] ->
        map (fun c => (titulo c, quantidade c)) (List.concat (cards_dept cd df))
        = contagem_dept df)
    /\ (verdadeiro cd = false \/ rows df = [] -> cards_dept cd df = []).
Proof.
  intros cd df. unfold cards_dept. split; [| split].
  - destruct (verdadeiro cd && negb (Nat.eqb (List.length (rows df)) 0));
      [| constructor].
    apply Forall_forall. intros linha Hin.
    destruct (cards_linhas 5 _ _ linha ltac:(lia) Hin) as [fatia [-> Hlen]].
    rewrite cards_cor_por_lugar, length_map, length_combine, length_seq, Nat.min_id.
    split; [lia | apply paleta_do_inicio; lia].
  - intros Hcd Hrows. rewrite Hcd.
    destruct (rows df) as [| r t]; [congruence |]. simpl.
    apply cards_lidos. lia.
  - intros [Hcd | Hrows]; [now rewrite Hcd | rewrite Hrows, andb_false_r; reflexivity].
Qed.

Lemma X5_witness :
  map (fun c => (titulo c, quantidade c))
      (List.concat (cards_dept (Some (u "Setor")) tabela_normalizada))
  = [(u "RH", 1); (u "TI", 2)].
Proof.
  rewrite (proj1 (proj2 (X5_department_cards (Some (u "Setor")) tabela_normalizada))
             eq_refl ltac:(discriminate)).
  vm_compute. reflexivity.
Defined.

(** ** Colours *)

Lemma cor_status_lower (s s' : pystr) :
  lower s = lower s' -> cor_status s = cor_status s'.
Proof. intros E. unfold cor_status. now rewrite E. Qed.

(** X6: the colour of a status does not depend on letter case, and every
    status listed in the colour table gets, in any letter case, the colour
    the table gives it: no earlier entry of the table gives it another
    colour. *)
Theorem X6_status_colour_of_listed :
  forall (k v s : pystr),
    In (k, v) cores_status -> lower s = lower k -> cor_status s = v.
Proof.
  intros k v s Hin Hs. rewrite (cor_status_lower s k Hs). clear s Hs.
  unfold cores_status in Hin. simpl in Hin.
  repeat (destruct Hin as [E | Hin];
          [injection E as <- <-; vm_compute; reflexivity |]).
  contradiction.
Qed.

Lemma X6_witness : cor_status (u "CONCLUÍDA") = u "#16a085".
Proof.
  apply (X6_status_colour_of_listed (u "Concluída") (u "#16a085") (u "CONCLUÍDA")).
  - vm_compute. tauto.
  - vm_compute. reflexivity.
Defined.

Lemma rows_normalizar (L : Bibliotecas) (cs : pystr) (cd : option pystr)
    (df : DataFrame) (r : Row) :
  In r (rows (normalizar cs cd df)) ->
  exists r0, In r0 (rows df)
             /\ get r status_normalizado = normalizado [] cs r0
             /\ forall c, c <> status_normalizado -> c <> departamento_normalizado ->
                          get r c = get r0 c.
Proof.
  destruct nomes_derivados_distintos as [Hsd _].
  intros Hr. unfold normalizar, com_departamento, com_status in Hr.
  destruct (verdadeiro cd) eqn:Hv; [destruct cd as [d |]; [| discriminate] |];
    unfold set_column in Hr; simpl in Hr; rewrite map_map in Hr;
    apply in_map_iff in Hr; destruct Hr as [r0 [<- Hr0]];
    exists r0; (split; [exact Hr0 | split]);
    try (rewrite get_set_other by exact Hsd; apply get_set_same);
    intros c Hc1 Hc2; rewrite !get_set_other by assumption; reflexivity.
Qed.

Lemma casa_status_interna : casa_status data_convertida = false.
Proof. vm_compute. reflexivity. Qed.

(** X7: on every page rendered from a table that has no column named
    [status_normalizado] or [departamento_normalizado], a text cell of the
    status column is styled, in the detail table, with the colour of the
    status card of its row: the row's status value is one of the counted
    statuses, and the style carries the colour [cor_status] gives that
    value. A status cell that is not text gets no style. *)
Theorem X7_table_colour_is_card_colour :
  forall (L : Bibliotecas) (file : Upload) (w : Widgets) (agora : Z)
         (carimbo : pystr) (p : Painel) (df : DataFrame) (cs : pystr),
    dashboard file w agora carimbo = Renderizou p ->
    carregar_dados file = ([], Some df) ->
    col_status (columns df) = Some cs ->
    ~ In status_normalizado (columns df) ->
    ~ In departamento_normalizado (columns df) ->
    forall r, In r (rows (df_filtrado p)) ->
      match get r cs with
      | CStr s =>
          exists st, get r status_normalizado = CStr st
                     /\ In st (map fst (contagem_status (df_filtrado p)))
                     /\ destacar_status (get r cs)
                        = u "background-color: " ++ cor_status st
                          ++ u "; color: white; font-weight: bold;"
      | _ => destacar_status (get r cs) = []
      end.
Proof.
  intros L file w agora carimbo p df cs Hd Hload Hcs Hns Hnd r Hr.
  destruct (dashboard_renderizou L file w agora carimbo p Hd)
    as [df' [cs' [avisos [Hload' [_ [Hcs' [_ [Hap _]]]]]]]].
  rewrite Hload in Hload'. injection Hload' as <-.
  rewrite Hcs in Hcs'. injection Hcs' as <-.
  rewrite col_status_find in Hcs. apply find_some in Hcs. destruct Hcs as [Hin Hcasa].
  assert (Hc1 : cs <> status_normalizado) by (intros ->; contradiction).
  assert (Hc2 : cs <> departamento_normalizado) by (intros ->; contradiction).
  assert (Hc3 : cs <> data_convertida)
    by (intros ->; rewrite casa_status_interna in Hcasa; discriminate).
  destruct nomes_derivados_distintos as [_ [Hsdc _]].
  destruct (aplicar_filtros_forma L _ _ _ _ _ _ _ _ _ _ Hap) as [g [k [Hrows Hg]]].
  pose proof Hr as Hr'. rewrite Hrows in Hr'. apply in_map_iff in Hr'.
  destruct Hr' as [r1 [<- Hr1]]. apply filter_In in Hr1. destruct Hr1 as [Hr1 _].
  destruct (rows_normalizar L cs _ df r1 Hr1) as [r0 [_ [Hst Hraw]]].
  rewrite (Hg r1 cs Hc3), (Hraw cs Hc1 Hc2).
  destruct (get r0 cs) as [s | | | |] eqn:E; try reflexivity.
  exists (strip s). split; [| split].
  - rewrite (Hg r1 status_normalizado Hsdc), Hst. unfold normalizado.
    now rewrite E.
  - unfold contagem_status, contagem, tamanhos. rewrite map_map. simpl. rewrite map_id.
    apply In_ordenar. apply (In_distintos_por eqb leb eqb_eq).
    apply In_strings_of. unfold column. apply in_map_iff.
    exists (g r1). split; [| exact Hr].
    rewrite (Hg r1 status_normalizado Hsdc), Hst. unfold normalizado.
    now rewrite E.
  - reflexivity.
Qed.

Lemma X7_witness :
  match dashboard (H := Referencia.referencia) Cenario.arquivo Cenario.tudo
                  Cenario.agora carimbo0 with
  | Renderizou p =>
      Forall (fun r =>
                match get r (u "Status") with
                | CStr s =>
                    exists st, get r status_normalizado = CStr st
                               /\ In st (map fst (contagem_status (df_filtrado p)))
                               /\ destacar_status (get r (u "Status"))
                                  = u "background-color: " ++ cor_status st
                                    ++ u "; color: white; font-weight: bold;"
                | _ => destacar_status (get r (u "Status")) = []
                end) (rows (df_filtrado p))
  | _ => False
  end.
Proof.
  destruct (dashboard (H := Referencia.referencia) Cenario.arquivo Cenario.tudo
                      Cenario.agora carimbo0) as [ms | | p] eqn:E;
    [vm_compute in E; discriminate | vm_compute in E; discriminate |].
  apply Forall_forall.
  apply (X7_table_colour_is_card_colour Referencia.referencia Cenario.arquivo
           Cenario.tudo Cenario.agora carimbo0 p Cenario.tabela (u "Status") E).
  - vm_compute. reflexivity.
  - vm_compute. reflexivity.
  - intros Hin. vm_compute in Hin. intuition discriminate.
  - intros Hin. vm_compute in Hin. intuition discriminate.
Defined.

(** ** Detail table *)

Lemma In_firstn {A : Type} (n : nat) (l : list A) (x : A) :
  In x (firstn n l) -> In x l.
Proof.
  intros Hx. rewrite <- (firstn_skipn n l). apply in_or_app. now left.
Qed.

Lemma NoDup_firstn {A : Type} (n : nat) (l : list A) :
  NoDup l -> NoDup (firstn n l).
Proof.
  intros Hl. rewrite <- (firstn_skipn n l) in Hl.
  exact (NoDup_app_remove_r _ _ Hl).
Qed.

Lemma colunas_exibir_relevantes (cols : list pystr) :
  In status_normalizado cols ->
  colunas_exibir cols
  = filter (fun col => negb (isin col colunas_internas)) (colunas_relevantes cols).
Proof.
  intros Hin. unfold colunas_exibir.
  destruct (colunas_relevantes cols) as [| c t] eqn:E; [| reflexivity].
  assert (Hrel : In status_normalizado (colunas_relevantes cols)).
  { apply filter_In. split; [exact Hin | vm_compute; reflexivity]. }
  rewrite E in Hrel. contradiction.
Qed.

(** X8: on every page that is rendered, the columns offered for the detail
    table are exactly the columns of the Filtered Table whose lower-cased
    name contains one of the relevance words and that are not one of the
    three internal columns, in the order of the table. The fall-back to all
    columns never applies, because the column [status_normalizado] is always
    there and is relevant: a column of the upload without any of the words
    is never offered. *)
Theorem X8_detail_columns :
  forall (L : Bibliotecas) (file : Upload) (w : Widgets) (agora : Z)
         (carimbo : pystr) (p : Painel),
    dashboard file w agora carimbo = Renderizou p ->
    Subseq (colunas_exibir (columns (df_filtrado p))) (columns (df_filtrado p))
    /\ forall c, In c (colunas_exibir (columns (df_filtrado p))) <->
                 In c (columns (df_filtrado p))
                 /\ relevante c = true
                 /\ ~ In c colunas_internas.
Proof.
  intros L file w agora carimbo p Hd.
  destruct (pagina_forma L file w agora carimbo p Hd) as [_ [Hs _]].
  rewrite (colunas_exibir_relevantes _ Hs). unfold colunas_relevantes.
  rewrite filter_filter. split.
  - apply filter_Subseq.
  - intros c. rewrite filter_In, andb_true_iff, negb_true_iff.
    assert (Hi : isin c colunas_internas = false <-> ~ In c colunas_internas)
      by (rewrite <- isin_In; destruct (isin c colunas_internas);
          intuition congruence).
    rewrite Hi. tauto.
Qed.

Lemma X8_witness :
  match dashboard (H := Referencia.referencia) arquivo_obs so_abertas
                  Cenario.agora carimbo0 with
  | Renderizou p =>
      Subseq (colunas_exibir (columns (df_filtrado p))) (columns (df_filtrado p))
      /\ colunas_exibir (columns (df_filtrado p)) = [u "Status"]
  | _ => False
  end.
Proof.
  destruct (dashboard (H := Referencia.referencia) arquivo_obs so_abertas
                      Cenario.agora carimbo0) as [ms | | p] eqn:E;
    [vm_compute in E; discriminate | vm_compute in E; discriminate |].
  split.
  - exact (proj1 (X8_detail_columns Referencia.referencia arquivo_obs so_abertas
                    Cenario.agora carimbo0 p E)).
  - vm_compute in E. injection E as <-. vm_compute. reflexivity.
Defined.

(** X9: every default of the column multiselect is one of its options, so
    the widget accepts the default; the first eight options are always among
    the defaults; with distinct options the defaults are distinct; and when
    an option is named "Razão Social" (or, failing that, "Razao Social") it
    is the first default, which can make nine defaults. *)
Theorem X9_default_columns :
  forall exibir : list pystr,
    (forall c, In c (colunas_default exibir) -> In c exibir)
    /\ (forall c, In c (firstn 8 exibir) -> In c (colunas_default exibir))
    /\ (NoDup exibir -> NoDup (colunas_default exibir))
    /\ (In (u "Razão Social") exibir ->
        hd_error (colunas_default exibir) = Some (u "Razão Social")
        /\ List.length (colunas_default exibir) <= 9)
    /\ (~ In (u "Razão Social") exibir -> In (u "Razao Social") exibir ->
        hd_error (colunas_default exibir) = Some (u "Razao Social")
        /\ List.length (colunas_default exibir) <= 9).
Proof.
  intros exibir. unfold colunas_default.
  assert (Hmin : firstn (Nat.min 8 (List.length exibir)) exibir = firstn 8 exibir).
  { destruct (Nat.le_gt_cases 8 (List.length exibir)) as [Hle | Hgt].
    - now rewrite Nat.min_l.
    - rewrite Nat.min_r by lia. rewrite !firstn_all2 by lia. reflexivity. }
  rewrite Hmin. set (primeiras := firstn 8 exibir).
  assert (Hp : forall c, In c primeiras -> In c exibir)
    by (intros c; apply In_firstn).
  assert (Hlen : List.length primeiras <= 8) by apply firstn_le_length.
  assert (Hfl : forall f, List.length (filter f primeiras) <= 8).
  { intros f. pose proof (filter_length_le f primeiras). lia. }
  assert (Hpin : forall x : pystr,
             In x exibir ->
             (forall c, In c (x :: filter (fun c => negb (eqb c x)) primeiras) ->
                        In c exibir)
             /\ (forall c, In c primeiras ->
                           In c (x :: filter (fun c => negb (eqb c x)) primeiras))
             /\ (NoDup exibir ->
                 NoDup (x :: filter (fun c => negb (eqb c x)) primeiras))
             /\ List.length (x :: filter (fun c => negb (eqb c x)) primeiras) <= 9).
  { intros x Hx. split; [| split; [| split]].
    - intros c [<- | Hc]; [exact Hx |]. apply filter_In in Hc. now apply Hp.
    - intros c Hc. destruct (eqb c x) eqn:Ec.
      + apply eqb_eq in Ec. now left.
      + right. apply filter_In. now rewrite Ec.
    - intros Hnd. constructor.
      + rewrite filter_In, eqb_refl. intros [_ Hf]. discriminate.
      + apply NoDup_filter. now apply NoDup_firstn.
    - simpl. specialize (Hfl (fun c => negb (eqb c x))). lia. }
  destruct (isin (u "Razão Social") exibir) eqn:E1.
  { apply isin_In in E1. destruct (Hpin _ E1) as [H1 [H2 [H3 H4]]].
    split; [exact H1 | split; [exact H2 | split; [exact H3 | split]]].
    - intros _. split; [reflexivity | exact H4].
    - intros Hn. contradiction. }
  assert (N1 : ~ In (u "Razão Social") exibir)
    by (intros Hin; apply isin_In in Hin; congruence).
  destruct (isin (u "Razao Social") exibir) eqn:E2.
  { apply isin_In in E2. destruct (Hpin _ E2) as [H1 [H2 [H3 H4]]].
    split; [exact H1 | split; [exact H2 | split; [exact H3 | split]]].
    - intros Hin. contradiction.
    - intros _ _. split; [reflexivity | exact H4]. }
  assert (N2 : ~ In (u "Razao Social") exibir)
    by (intros Hin; apply isin_In in Hin; congruence).
  destruct (isin (u "razão social") (map lower exibir)) eqn:E3.
  - split; [| split; [| split; [| split]]]; try (intros; contradiction).
    + intros c Hc. apply in_app_or in Hc.
      destruct Hc as [Hc | Hc]; apply filter_In in Hc; [tauto | now apply Hp].
    + intros c Hc. apply in_or_app.
      destruct (eqb (lower c) (u "razão social")) eqn:Ec.
      * left. apply filter_In. split; [now apply Hp | exact Ec].
      * right. apply filter_In. now rewrite Ec.
    + intros Hnd. apply NoDup_app.
      * now apply NoDup_filter.
      * apply NoDup_filter. now apply NoDup_firstn.
      * intros c H1 H2. apply filter_In in H1. apply filter_In in H2.
        destruct H1 as [_ H1]. destruct H2 as [_ H2]. rewrite H1 in H2. discriminate.
  - split; [| split; [| split; [| split]]]; try (intros; contradiction).
    + exact Hp.
    + tauto.
    + intros Hnd. now apply NoDup_firstn.
Qed.

Lemma X9_witness :
  hd_error (colunas_default
              [u "Status"; u "Setor"; u "Data"; u "Cliente"; u "Produto";
               u "Modelo"; u "Defeito"; u "Telefone"; u "Razão Social"])
  = Some (u "Razão Social")
  /\ List.length (colunas_default
                    [u "Status"; u "Setor"; u "Data"; u "Cliente"; u "Produto";
                     u "Modelo"; u "Defeito"; u "Telefone"; u "Razão Social"]) = 9.
Proof.
  split; [| vm_compute; reflexivity].
  apply (proj1 (proj2 (proj2 (proj2
           (X9_default_columns
              [u "Status"; u "Setor"; u "Data"; u "Cliente"; u "Produto";
               u "Modelo"; u "Defeito"; u "Telefone"; u "Razão Social"]))))).
  vm_compute. tauto.
Defined.

(** ** Loader *)

Lemma tem_valor_dropna (df : DataFrame) (c : pystr) :
  In c (columns (dropna_columns df)) -> tem_valor (dropna_columns df) c = true.
Proof.
  intros Hc. pose proof Hc as Hc'. apply dropna_columns_In in Hc'.
  destruct Hc' as [_ Hv]. unfold tem_valor in *.
  apply existsb_exists in Hv. destruct Hv as [r [Hr Hna]].
  apply existsb_exists.
  exists (filter (fun kv : pystr * cell =>
                    isin (fst kv) (columns (dropna_columns df))) r).
  split.
  - unfold dropna_columns at 1. simpl. apply in_map_iff. exists r. now split.
  - rewrite get_filter_kept; [exact Hna | now apply isin_In].
Qed.

(** X10: a frame that [carregar_dados] returns has a value, in some row, in
    each of its columns; so it is empty exactly when it has no column, and
    it comes without an error message. *)
Theorem X10_loaded_frame :
  forall (L : Bibliotecas) (file : Upload) (ms : list mensagem) (df : DataFrame),
    carregar_dados file = (ms, Some df) ->
    ms = []
    /\ (forall c, In c (columns df) -> tem_valor df c = true)
    /\ (empty df = true <-> columns df = []).
Proof.
  intros L file ms df Hload. unfold carregar_dados in Hload.
  destruct (if endswith (u ".csv") (name file)
            then tentar_csv encodings file else read_excel file) as [df0 |];
    [| discriminate].
  injection Hload as <- <-. split; [reflexivity | split].
  - intros c. apply tem_valor_dropna.
  - unfold empty. destruct (columns (dropna_columns df0)) as [| c t] eqn:Ec.
    + tauto.
    + assert (Hv : tem_valor (dropna_columns df0) c = true)
        by (apply tem_valor_dropna; rewrite Ec; now left).
      unfold tem_valor in Hv.
      destruct (rows (dropna_columns df0)); [discriminate |].
      split; discriminate.
Qed.

Lemma X10_witness :
  Forall (fun c => tem_valor Cenario.tabela c = true) (columns Cenario.tabela)
  /\ (empty Cenario.tabela = true <-> columns Cenario.tabela = []).
Proof.
  destruct (X10_loaded_frame Referencia.referencia Cenario.arquivo []
              Cenario.tabela eq_refl) as [_ [Hv He]].
  split; [apply Forall_forall; exact Hv | exact He].
Defined.

Lemma tentar_csv_none (L : Bibliotecas) (encs : list pystr) (file : Upload) :
  tentar_csv encs file = None <-> forall e, In e encs -> read_csv e file = None.
Proof.
  induction encs as [| e t IH]; simpl.
  - split; [intros _ e [] | reflexivity].
  - destruct (read_csv e file) as [df |] eqn:E.
    + split; [discriminate |]. intros Hall.
      rewrite (Hall e (or_introl eq_refl)) in E. discriminate.
    + rewrite IH. split.
      * intros Hall e' [<- | He']; [exact E | now apply Hall].
      * intros Hall e' He'. apply Hall. now right.
Qed.

(** X11: the run stops after the two messages "Erro ao carregar arquivo"
    and "Não foi possível carregar os dados" exactly when reading raised:
    for a name ending in ".csv" (in lower case), when [read_csv] raised for
    each of the three encodings; for any other name, when [read_excel]
    raised. *)
Theorem X11_load_failure :
  forall (L : Bibliotecas) (file : Upload) (w : Widgets) (agora : Z)
         (carimbo : pystr),
    dashboard file w agora carimbo = Parou [ErroCarregarArquivo; ErroSemDados]
    <-> (if endswith (u ".csv") (name file)
         then forall e, In e [u "utf-8"; u "latin1"; u "iso-8859-1"] ->
                        read_csv e file = None
         else read_excel file = None).
Proof.
  intros L file w agora carimbo.
  assert (Hlido : (if endswith (u ".csv") (name file)
                   then tentar_csv encodings file else read_excel file) = None
                  <-> (if endswith (u ".csv") (name file)
                       then forall e, In e [u "utf-8"; u "latin1"; u "iso-8859-1"] ->
                                      read_csv e file = None
                       else read_excel file = None)).
  { destruct (endswith (u ".csv") (name file)); [apply tentar_csv_none | tauto]. }
  rewrite <- Hlido. unfold dashboard, carregar_dados.
  destruct (if endswith (u ".csv") (name file)
            then tentar_csv encodings file else read_excel file) as [df0 |].
  - split; [| discriminate]. intros Hd.
    destruct (empty (dropna_columns df0)); [discriminate |].
    destruct (col_status (columns (dropna_columns df0))) as [cs |]; [| discriminate].
    destruct (truthy cs); simpl in Hd; [| discriminate].
    destruct (aplicar_filtros _ _ _ _ _ _ _ _) as [[avisos filtrado] |];
      [| discriminate].
    destruct (grafico_temporal _ filtrado); discriminate.
  - split; reflexivity.
Qed.

(** ** The other column roles *)

Lemma find_ext_local {A : Type} (f g : A -> bool) (l : list A) :
  (forall x, f x = g x) -> find f l = find g l.
Proof.
  intros Hfg. induction l as [| a t IH]; simpl.
  - reflexivity.
  - rewrite Hfg, IH. reflexivity.
Qed.

Lemma find_primeiro {A : Type} (f : A -> bool) (l : list A) :
  match find f l with
  | Some c => exists antes depois,
                l = antes ++ c :: depois /\ f c = true
                /\ forall x, In x antes -> f x = false
  | None => forall x, In x l -> f x = false
  end.
Proof.
  destruct (find f l) as [c |] eqn:E.
  - now apply find_split.
  - intros x Hx. exact (find_none _ _ E x Hx).
Qed.

(** X12: the department column is the earliest column, in the order of the
    table, whose normalised name contains one of "departamento", "setor",
    "area", "área", "dept", "unidade", "equipe", "time", and the date column
    the earliest one whose trimmed, lower-cased name contains one of "data",
    "dt_", "abertura", "entrada", "registro"; without such a column the role
    stays empty. *)
Theorem X12_department_and_date_columns :
  forall cols : list pystr,
    match col_departamento cols with
    | Some c => exists antes depois,
                  cols = antes ++ c :: depois /\ casa_departamento c = true
                  /\ forall x, In x antes -> casa_departamento x = false
    | None => forall x, In x cols -> casa_departamento x = false
    end
    /\ match col_data cols with
       | Some c => exists antes depois,
                     cols = antes ++ c :: depois /\ casa_data c = true
                     /\ forall x, In x antes -> casa_data x = false
       | None => forall x, In x cols -> casa_data x = false
       end.
Proof.
  intros cols. split.
  - change (col_departamento cols) with (find casa_departamento cols).
    apply find_primeiro.
  - replace (col_data cols) with (find casa_data cols); [apply find_primeiro |].
    unfold col_data, identificar. apply find_ext_local. intros x.
    unfold casa_data, keywords_data. cbn [existsb].
    destruct (contains (u "entrada") (lower (strip x)));
      destruct (contains (u "registro") (lower (strip x)));
      rewrite ?orb_true_r, ?orb_false_r; reflexivity.
Qed.

Lemma startswith_incl (p s : pystr) :
  startswith p s = true -> forall x, In x p -> In x s.
Proof.
  revert s. induction p as [| a t IH]; intros s Hs x Hx.
  - contradiction.
  - destruct s as [| b s']; [discriminate |]. simpl in Hs.
    apply andb_true_iff in Hs. destruct Hs as [Hab Ht].
    apply N.eqb_eq in Hab. subst b.
    destruct Hx as [<- | Hx]; [now left | right; now apply (IH s')].
Qed.

Lemma contains_incl (p s : pystr) :
  contains p s = true -> forall x, In x p -> In x s.
Proof.
  induction s as [| b s' IH]; simpl; intros Hc x Hx.
  - rewrite orb_false_r in Hc. exact (startswith_incl p [] Hc x Hx).
  - apply orb_true_iff in Hc. destruct Hc as [Hc | Hc].
    + exact (startswith_incl p (b :: s') Hc x Hx).
    + right. now apply IH.
Qed.

Lemma replace_sem (a b : N) (s : pystr) : a <> b -> ~ In a (replace a b s).
Proof.
  intros Hab Hin. unfold replace in Hin. apply in_map_iff in Hin.
  destruct Hin as [c [Hc _]].
  destruct (c =? a)%N eqn:E; [congruence | apply N.eqb_neq in E; congruence].
Qed.

Lemma replace_outro (a b x : N) (s : pystr) :
  x <> b -> In x (replace a b s) -> In x s.
Proof.
  intros Hxb Hin. unfold replace in Hin. apply in_map_iff in Hin.
  destruct Hin as [c [Hc Hcs]].
  destruct (c =? a)%N; [congruence | now subst].
Qed.

Lemma sem_acentos_sem_til (col : pystr) : ~ In 227%N (sem_acentos col).
Proof.
  unfold sem_acentos. intros Hin.
  apply replace_outro in Hin; [| discriminate].
  revert Hin. apply replace_sem. discriminate.
Qed.

(** X13: the keyword "situacão" of the status classifier never matches,
    because ã has been replaced by a before the test: the status column is
    the one found with "status", "situacao" and "estado" alone. *)
Theorem X13_keyword_with_tilde_is_dead :
  (forall col, contains (u "situacão") (sem_acentos col) = false)
  /\ forall cols,
       col_status cols
       = identificar sem_acentos [u "status"; u "situacao"; u "estado"] cols.
Proof.
  assert (Hdead : forall col, contains (u "situacão") (sem_acentos col) = false).
  { intros col. destruct (contains _ (sem_acentos col)) eqn:E; [| reflexivity].
    exfalso. apply (sem_acentos_sem_til col).
    apply (contains_incl _ _ E). vm_compute. tauto. }
  split; [exact Hdead |].
  intros cols. unfold col_status, identificar, keywords_status.
  apply find_ext_local. intros col. cbn [existsb]. now rewrite Hdead.
Qed.

(** ** The universe of selectable values, continued *)

Lemma sorted_ordenar (l : list pystr) : sorted l = ordenar leb l.
Proof.
  unfold sorted, ordenar. induction l as [| x t IH]; simpl; [reflexivity |].
  rewrite IH. generalize (fold_right (inserir leb) [] t). intros m.
  induction m as [| y m' IHm]; simpl; [reflexivity |].
  destruct (leb x y); [reflexivity | now rewrite IHm].
Qed.

Lemma unique_distintos (l : list pystr) : unique l = distintos_por eqb l.
Proof.
  induction l as [| x t IH]; simpl; [reflexivity | now rewrite IH].
Qed.

(** X14: the selectable statuses and the selectable departments are listed
    in ascending order and without repetition. *)
Theorem X14_universe_sorted :
  forall (df : DataFrame) (cd : option pystr),
    Sorted (fun a b => leb a b = true) (todos_status df)
    /\ NoDup (todos_status df)
    /\ Sorted (fun a b => leb a b = true) (todos_departamentos cd df)
    /\ NoDup (todos_departamentos cd df).
Proof.
  assert (H : forall df col, Sorted (fun a b => leb a b = true) (todos df col)
                             /\ NoDup (todos df col)).
  { intros df col. unfold todos. rewrite sorted_ordenar, unique_distintos. split.
    - apply Sorted_ordenar. exact leb_total.
    - apply NoDup_ordenar. apply NoDup_filter.
      apply (NoDup_distintos_por eqb eqb_eq). }
  intros df cd. unfold todos_status, todos_departamentos.
  destruct (H df status_normalizado) as [H1 H2].
  destruct (H df departamento_normalizado) as [H3 H4].
  destruct (verdadeiro cd); repeat split; try assumption; constructor.
Qed.

Lemma filter_ext_In {A : Type} (f g : A -> bool) (l : list A) :
  (forall x, In x l -> f x = g x) -> filter f l = filter g l.
Proof.
  induction l as [| a t IH]; simpl; intros Hfg.
  - reflexivity.
  - rewrite (Hfg a (or_introl eq_refl)), IH; [reflexivity |].
    intros x Hx. apply Hfg. now right.
Qed.

(** X15: with "select all statuses" ticked and at least one selectable
    status, the status filter keeps exactly the rows whose status value is
    neither empty nor the text "nan": a ticket without a status is left out
    of the page. *)
Theorem X15_select_all_drops_empty_status :
  forall (L : Bibliotecas) (df0 : DataFrame) (cs : pystr) (cd : option pystr)
         (w : Widgets),
    status_todos w = true ->
    todos_status (com_status cs df0) <> [] ->
    rows (filtro_status (status_selecionados w (com_status cs df0))
                        (normalizar cs cd df0))
    = filter status_selecionavel (rows (normalizar cs cd df0)).
Proof.
  intros L df0 cs cd w Hw Hne. unfold status_selecionados. rewrite Hw.
  unfold filtro_status.
  destruct (todos_status (com_status cs df0)) as [| s0 t0] eqn:E; [congruence |].
  cbn [nao_vazia select rows]. rewrite <- E.
  apply filter_ext_In. intros r Hr.
  destruct (rows_normalizar L cs cd df0 r Hr) as [r0 [Hr0 [Hst _]]].
  unfold status_selecionavel. rewrite Hst. unfold normalizado. cbn [cell_isin].
  set (s := strip (astype_str (fillna [] (get r0 cs)))).
  assert (Hu : In s (unique (strings_of (column (com_status cs df0)
                                                status_normalizado)))).
  { apply In_unique. rewrite strings_com_status. apply in_map_iff.
    exists r0. now split. }
  destruct (isin s (todos_status (com_status cs df0))) eqn:Ei.
  - apply isin_In in Ei. unfold todos_status, todos in Ei.
    apply (proj1 (In_sorted _ _)) in Ei. apply (proj1 (filter_In _ _ _)) in Ei.
    destruct Ei as [_ Ei].
    apply andb_true_iff in Ei. destruct Ei as [Ei _]. now rewrite Ei.
  - destruct (truthy s && negb (eqb s (u "nan"))) eqn:Es; [| reflexivity].
    exfalso. assert (Hin : In s (todos_status (com_status cs df0))).
    { unfold todos_status, todos. apply In_sorted. apply filter_In.
      split; [exact Hu |]. rewrite Es. simpl.
      apply andb_true_iff in Es. destruct Es as [Ht _].
      destruct s; [discriminate | reflexivity]. }
    apply isin_In in Hin. congruence.
Qed.

Lemma X15_witness :
  rows (filtro_status
          (status_selecionados Cenario.tudo
             (com_status (H := Referencia.referencia) (u "Status") tabela_mista))
          (normalizar (H := Referencia.referencia) (u "Status") None tabela_mista))
  = filter status_selecionavel
           (rows (normalizar (H := Referencia.referencia) (u "Status") None
                             tabela_mista)).
Proof.
  apply (X15_select_all_drops_empty_status Referencia.referencia tabela_mista
           (u "Status") None Cenario.tudo eq_refl).
  vm_compute. discriminate.
Defined.

(** ** Charts *)

Lemma tamanhos_nao_vazio {K : Type} (keq kle : K -> K -> bool) (l : list K) (x : K) :
  (forall a b, keq a b = true <-> a = b) ->
  In x l -> 0 < List.length (tamanhos keq kle l).
Proof.
  intros Hspec Hx. unfold tamanhos. rewrite length_map.
  assert (Hin : In x (ordenar kle (distintos_por keq l)))
    by (apply In_ordenar; now apply (In_distintos_por keq kle Hspec)).
  destruct (ordenar kle (distintos_por keq l)); [contradiction | simpl; lia].
Qed.

Lemma contagens_nao_vazias (df : DataFrame) :
  texto_derivado df -> rows df <> [] ->
  0 < List.length (contagem_status df) /\ 0 < List.length (df_pivot df).
Proof.
  intros Ht Hne. destruct (rows df) as [| r t] eqn:E; [congruence |].
  destruct (Ht r) as [[s Hs] [d Hd]]; [rewrite E; now left |]. split.
  - unfold contagem_status, contagem.
    apply (tamanhos_nao_vazio eqb leb _ s eqb_eq).
    apply In_strings_of. unfold column. rewrite E. simpl. left. exact Hs.
  - unfold df_pivot. apply (tamanhos_nao_vazio par_eqb par_leb _ (d, s) par_eqb_eq).
    rewrite E. simpl. apply in_or_app. left.
    unfold par_dept_status. rewrite Hd, Hs. now left.
Qed.

(** X16: on every page that is rendered, the grouped bar chart "Status por
    Departamento" is drawn exactly when the right-hand chart is the
    department donut; when the Filtered Table has rows the right-hand chart
    is always there, the donut with a department column and at least two
    departments among the rows, the status ranking otherwise; and without
    rows neither chart is drawn. *)
Theorem X16_charts_together :
  forall (L : Bibliotecas) (file : Upload) (w : Widgets) (agora : Z)
         (carimbo : pystr) (p : Painel),
    dashboard file w agora carimbo = Renderizou p ->
    forall cd : option pystr,
      (grafico_comparativo cd (df_filtrado p) = true
       <-> grafico_direito cd (df_filtrado p) = DonutDepartamento)
      /\ (rows (df_filtrado p) <> [] ->
          grafico_direito cd (df_filtrado p)
          = if verdadeiro cd && varios_departamentos (df_filtrado p)
            then DonutDepartamento else BarrasStatus)
      /\ (rows (df_filtrado p) = [] ->
          grafico_direito cd (df_filtrado p) = SemGrafico
          /\ grafico_comparativo cd (df_filtrado p) = false).
Proof.
  intros L file w agora carimbo p Hd cd.
  destruct (pagina_forma L file w agora carimbo p Hd) as [Ht _].
  unfold grafico_comparativo, grafico_direito.
  destruct (rows (df_filtrado p)) as [| r t] eqn:E.
  - simpl. rewrite andb_false_r. simpl.
    split; [split; discriminate | split; [congruence | tauto]].
  - destruct (contagens_nao_vazias (df_filtrado p) Ht) as [Hc Hp];
      [rewrite E; discriminate |].
    apply Nat.ltb_lt in Hc. apply Nat.ltb_lt in Hp. rewrite Hc, Hp. simpl.
    rewrite andb_true_r.
    destruct (verdadeiro cd); simpl;
      [destruct (varios_departamentos (df_filtrado p)) |];
      (split; [split; congruence | split; [reflexivity | discriminate]]).
Qed.

Lemma X16_witness :
  match dashboard (H := Referencia.referencia) Cenario.arquivo Cenario.tudo
                  Cenario.agora carimbo0 with
  | Renderizou p =>
      grafico_comparativo (Some (u "Setor")) (df_filtrado p) = true
      /\ grafico_direito (Some (u "Setor")) (df_filtrado p) = DonutDepartamento
  | _ => False
  end.
Proof.
  destruct (dashboard (H := Referencia.referencia) Cenario.arquivo Cenario.tudo
                      Cenario.agora carimbo0) as [ms | | p] eqn:E;
    [vm_compute in E; discriminate | vm_compute in E; discriminate |].
  destruct (X16_charts_together Referencia.referencia Cenario.arquivo Cenario.tudo
              Cenario.agora carimbo0 p E (Some (u "Setor"))) as [Hiff _].
  assert (Hc : grafico_comparativo (Some (u "Setor")) (df_filtrado p) = true)
    by (vm_compute in E; injection E as <-; vm_compute; reflexivity).
  split; [exact Hc | now apply Hiff].
Defined.

(** ** More on the filters *)

(** X18: widening the period never loses a row. For the same table and the
    same clock, every row that the date filter leaves for a window of N days
    is also left for any window of at least N days, and both windows show
    the same warning. *)
Theorem X18_wider_window_keeps_rows :
  forall (L : Bibliotecas) (cdata : option pystr) (p1 p2 : Periodo) (d1 d2 agora : Z)
         (df : DataFrame),
    dias_map p1 = Some d1 -> dias_map p2 = Some d2 -> (d1 <= d2)%Z ->
    fst (filtro_periodo cdata p1 agora df) = fst (filtro_periodo cdata p2 agora df)
    /\ forall r, In r (rows (snd (filtro_periodo cdata p1 agora df))) ->
                 In r (rows (snd (filtro_periodo cdata p2 agora df))).
Proof.
  intros L cdata p1 p2 d1 d2 agora df H1 H2 Hle.
  destruct cdata as [c |];
    [| unfold filtro_periodo; split; [reflexivity | tauto]].
  destruct (truthy c) eqn:Hc;
    [| unfold filtro_periodo; rewrite H1, H2, Hc; split; [reflexivity | tauto]].
  destruct (to_datetime true (column df c)) as [converte |] eqn:Hconv;
    [| unfold filtro_periodo; rewrite H1, H2, Hc, Hconv;
       split; [reflexivity | tauto]].
  rewrite (filtro_periodo_converte L c p1 d1 agora df converte Hc H1 Hconv).
  rewrite (filtro_periodo_converte L c p2 d2 agora df converte Hc H2 Hconv).
  destruct (tz_aware_em c converte (rows df)); simpl; split;
    try reflexivity; try tauto.
  intros r Hr. apply in_map_iff in Hr. destruct Hr as [r0 [<- Hr0]].
  apply filter_In in Hr0. destruct Hr0 as [Hin Hj].
  apply in_map_iff. exists r0. split; [reflexivity |].
  apply filter_In. split; [exact Hin |].
  unfold na_janela, data_limite, ns_por_dia in *.
  destruct (converte (get r0 c)) as [t |]; [| discriminate].
  apply Z.leb_le in Hj. apply Z.leb_le. lia.
Qed.

Lemma X18_witness :
  Forall (fun r => In r (rows (snd (filtro_periodo (H := Referencia.referencia)
                                      (Some (u "Data")) Ultimos30 Cenario.agora
                                      tabela_normalizada))))
         (rows (snd (filtro_periodo (H := Referencia.referencia) (Some (u "Data"))
                                    Ultimos7 Cenario.agora tabela_normalizada))).
Proof.
  apply Forall_forall.
  apply (proj2 (X18_wider_window_keeps_rows Referencia.referencia (Some (u "Data"))
                  Ultimos7 Ultimos30 7 30 Cenario.agora tabela_normalizada
                  eq_refl eq_refl ltac:(lia))).
Defined.

Lemma avisos_do_periodo (L : Bibliotecas) (cdata : option pystr) (p : Periodo)
    (agora : Z) (df : DataFrame) :
  fst (filtro_periodo cdata p agora df) = []
  \/ fst (filtro_periodo cdata p agora df) = [AvisoData].
Proof.
  unfold filtro_periodo.
  destruct cdata as [c |]; [| now left].
  destruct (dias_map p); [| now left].
  destruct (truthy c); [| now left].
  destruct (to_datetime true (column df c)); [| now right].
  destruct (compara_raises _); [now right | now left].
Qed.

Lemma dashboard_sidebar (L : Bibliotecas) (file : Upload) (w : Widgets)
    (agora : Z) (carimbo : pystr) (p : Painel) :
  dashboard file w agora carimbo = Renderizou p ->
  exists cd depts sts per, sidebar p = notas cd depts sts per (df_filtrado p).
Proof.
  unfold dashboard. intros Hd.
  destruct (carregar_dados file) as [erros [df |]]; [| discriminate].
  destruct (empty df); [discriminate |].
  destruct (col_status (columns df)) as [cs |]; [| discriminate].
  destruct (truthy cs); simpl in Hd; [| discriminate].
  destruct (aplicar_filtros _ _ _ _ _ _ _ _) as [[avisos filtrado] |];
    [| discriminate].
  destruct (grafico_temporal _ filtrado) as [g |]; [| discriminate].
  injection Hd as <-. simpl. do 4 eexists. reflexivity.
Qed.

Lemma contagem_status_vazia (df : DataFrame) :
  texto_derivado df -> (contagem_status df = [] <-> rows df = []).
Proof.
  intros Ht. split; intros E.
  - assert (Hn : total (contagem_status df) = List.length (rows df)).
    { unfold contagem_status, contagem. rewrite total_tamanhos.
      apply strings_of_texto. intros r Hr. now apply Ht. }
    rewrite E in Hn. simpl in Hn.
    destruct (rows df); [reflexivity | discriminate].
  - unfold contagem_status, contagem, column. rewrite E. reflexivity.
Qed.

(** X19: on every page that is rendered, the notice that no record was
    found, which the script shows when the status counts are empty, appears
    exactly when the Filtered Table has no row; then there is no status
    card, no department card and no temporal chart, the sidebar reports 0
    records, and the export is still offered. The warnings of a rendered
    page are at most the date warning and this notice. *)
Theorem X19_no_records_notice :
  forall (L : Bibliotecas) (file : Upload) (w : Widgets) (agora : Z)
         (carimbo : pystr) (p : Painel),
    dashboard file w agora carimbo = Renderizou p ->
    (In AvisoSemRegistros (mensagens p) <-> rows (df_filtrado p) = [])
    /\ (rows (df_filtrado p) = [] ->
        cards_status (df_filtrado p) = []
        /\ (forall cd, cards_dept cd (df_filtrado p) = [])
        /\ temporal p = false
        /\ In (RegistrosFiltrados 0) (sidebar p)
        /\ csv p = exportar carimbo (df_filtrado p))
    /\ (forall m, In m (mensagens p) -> m = AvisoData \/ m = AvisoSemRegistros).
Proof.
  intros L file w agora carimbo p Hd.
  destruct (dashboard_sidebar L file w agora carimbo p Hd)
    as [cd0 [depts [sts [per Hside]]]].
  destruct (dashboard_renderizou L file w agora carimbo p Hd)
    as [df [cs [avisos [_ [_ [_ [_ [Hap [Hg [Hm Hcsv]]]]]]]]]].
  assert (Ht : texto_derivado (df_filtrado p))
    by (eapply texto_derivado_filtros;
        [exact Hap | apply texto_derivado_normalizar]).
  pose proof (contagem_status_vazia (df_filtrado p) Ht) as Hvazia.
  assert (Hav : avisos = [] \/ avisos = [AvisoData]).
  { unfold aplicar_filtros in Hap.
    pose proof (avisos_do_periodo L (col_data (columns df))
                  (periodo (col_data (columns df)) w) agora
                  (filtro_status (status_selecionados w (com_status cs df))
                     (filtro_departamento (col_departamento (columns df))
                        (dept_selecionados (col_departamento (columns df)) w
                           (normalizar cs (col_departamento (columns df)) df))
                        (normalizar cs (col_departamento (columns df)) df))))
      as Hav.
    destruct (filtro_periodo _ _ _ _) as [av d3]. simpl in Hav.
    destruct (filtro_busca (busca w) d3); [| discriminate].
    injection Hap as <- _. exact Hav. }
  split; [| split].
  - rewrite Hm. destruct (contagem_status (df_filtrado p)) as [| e t].
    + split; [intros _; now apply Hvazia |].
      intros _. apply in_or_app. right. now left.
    + rewrite app_nil_r. split.
      * destruct Hav as [-> | ->]; simpl; intuition discriminate.
      * intros Hrows. apply Hvazia in Hrows. discriminate.
  - intros Hrows. split; [| split; [| split; [| split]]].
    + unfold cards_status, contagem_status, contagem, column. rewrite Hrows.
      reflexivity.
    + intros cd. unfold cards_dept. rewrite Hrows. simpl.
      now rewrite andb_false_r.
    + unfold grafico_temporal in Hg. rewrite Hrows in Hg. simpl in Hg.
      rewrite andb_false_r in Hg. injection Hg as <-. reflexivity.
    + rewrite Hside. unfold notas. rewrite Hrows. apply in_or_app. right. now left.
    + exact Hcsv.
  - intros m. rewrite Hm. intros Hin. apply in_app_or in Hin.
    destruct Hin as [Hin | Hin].
    + destruct Hav as [-> | ->]; simpl in Hin; intuition.
    + destruct (contagem_status (df_filtrado p)); simpl in Hin; intuition.
Qed.

Lemma X19_witness :
  match dashboard (H := Referencia.referencia) arquivo_sem_datas ultimos7
                  Cenario.agora carimbo0 with
  | Renderizou p => In AvisoSemRegistros (mensagens p) /\ temporal p = false
                    /\ In (RegistrosFiltrados 0) (sidebar p)
  | _ => False
  end.
Proof.
  destruct (dashboard (H := Referencia.referencia) arquivo_sem_datas ultimos7
                      Cenario.agora carimbo0) as [ms | | p] eqn:E;
    [vm_compute in E; discriminate | vm_compute in E; discriminate |].
  destruct (X19_no_records_notice Referencia.referencia arquivo_sem_datas ultimos7
              Cenario.agora carimbo0 p E) as [Hiff [Hvazio _]].
  assert (Hrows : rows (df_filtrado p) = [])
    by (vm_compute in E; injection E as <-; reflexivity).
  destruct (Hvazio Hrows) as [_ [_ [Htemp [Hside _]]]].
  split; [now apply Hiff | split; assumption].
Defined.

(** X20: the department filter and the status filter can be applied in
    either order and applying one twice changes nothing; and selecting more
    statuses never loses a row, provided the smaller selection is not empty
    (an empty selection keeps every row). *)
Theorem X20_membership_filters_compose :
  forall (cd : option pystr) (depts sts sts' : list pystr) (df : DataFrame),
    filtro_status sts (filtro_departamento cd depts df)
    = filtro_departamento cd depts (filtro_status sts df)
    /\ filtro_status sts (filtro_status sts df) = filtro_status sts df
    /\ filtro_departamento cd depts (filtro_departamento cd depts df)
       = filtro_departamento cd depts df
    /\ (sts <> [] -> (forall s, In s sts -> In s sts') ->
        forall r, In r (rows (filtro_status sts df)) ->
                  In r (rows (filtro_status sts' df))).
Proof.
  intros cd depts sts sts' df.
  rewrite !filtro_departamento_passa, !filtro_status_passa, !select_select.
  split; [| split; [| split]].
  - apply select_ext. intros r _. apply andb_comm.
  - apply select_ext. intros r _. apply andb_diag.
  - apply select_ext. intros r _. apply andb_diag.
  - intros Hne Hincl r Hr. apply select_In in Hr. destruct Hr as [Hin Hp].
    apply select_In. split; [exact Hin |].
    unfold passa_status in *.
    destruct sts as [| s0 t0]; [congruence |]. cbn [nao_vazia] in Hp.
    destruct (nao_vazia sts'); [| reflexivity].
    destruct (get r status_normalizado) as [s | | | |]; try discriminate.
    cbn [cell_isin] in *. apply isin_In. apply Hincl. now apply isin_In.
Qed.

Lemma X20_witness :
  Forall (fun r => In r (rows (filtro_status [u "Aberta"; u "Concluída"]
                                             tabela_normalizada)))
         (rows (filtro_status [u "Aberta"] tabela_normalizada)).
Proof.
  apply Forall_forall.
  apply (proj2 (proj2 (proj2
           (X20_membership_filters_compose None [] [u "Aberta"]
              [u "Aberta"; u "Concluída"] tabela_normalizada)))).
  - discriminate.
  - intros s [<- | []]. now left.
Defined.

Lemma length_distintos (l : list (Z * pystr)) :
  List.length (distintos l) <= List.length l.
Proof.
  induction l as [| x t IH]; simpl; [lia |].
  pose proof (filter_length_le (fun y => negb (grupo_eqb x y)) (distintos t)). lia.
Qed.

Lemma length_df_evolucao (d : DataFrame) :
  List.length (df_evolucao d) <= List.length (rows d).
Proof.
  unfold df_evolucao.
  etransitivity; [apply length_distintos |].
  induction (rows d) as [| r t IH]; simpl; [lia |].
  rewrite length_app. destruct (grupo r); simpl; lia.
Qed.

(** X21: the temporal chart is drawn only with a date column, with the
    parsed-date column in the Filtered Table and with at least two (date,
    status) groups, hence never for a Filtered Table of fewer than two
    rows. *)
Theorem X21_temporal_chart_needs_two_rows :
  forall (cdata : option pystr) (d : DataFrame),
    grafico_temporal cdata d = Some true ->
    verdadeiro cdata = true
    /\ In data_convertida (columns d)
    /\ 2 <= List.length (df_evolucao d)
    /\ 2 <= List.length (rows d).
Proof.
  intros cdata d Hg. unfold grafico_temporal in Hg.
  destruct (verdadeiro cdata); [| discriminate].
  destruct (isin data_convertida (columns d)) eqn:Ein; [| discriminate].
  destruct (negb (Nat.eqb (List.length (rows d)) 0)); [| discriminate].
  simpl in Hg. destruct (dt_date _); [| discriminate].
  injection Hg as Hg. apply Nat.ltb_lt in Hg.
  pose proof (length_df_evolucao d).
  repeat split; [now apply isin_In | lia | lia].
Qed.

Lemma X21_witness :
  2 <= List.length
         (rows (snd (filtro_periodo (H := Referencia.referencia) (Some (u "Data"))
                                    Ultimos90 Cenario.agora tabela_normalizada))).
Proof.
  apply (X21_temporal_chart_needs_two_rows (Some (u "Data"))).
  vm_compute. reflexivity.
Defined.

(** ** The free-text filter, continued *)

(** X22: for a query that, lower-cased by Python, has none of the
    characters [re] reads as operators, and a library whose plain patterns
    search for themselves, the free-text filter raises nothing and keeps
    exactly the rows in which the lower-cased query occurs in the
    lower-cased text that [astype(str)] gives one of their cells in the
    table being filtered; an empty query keeps every row. *)
Theorem X22_plain_query_is_literal :
  forall (L : Bibliotecas) (q : pystr) (df : DataFrame),
    re_literal_law ->
    existsb re_special (str_lower q) = false ->
    filtro_busca q df = Some (select (casa_busca q df) df)
    /\ (q = [] -> filtro_busca q df = Some df).
Proof.
  intros L q df Hlaw Hq. split.
  - now apply filtro_busca_literal.
  - intros ->. reflexivity.
Qed.

Lemma X22_witness :
  option_map (fun d => column d (u "Cliente"))
             (filtro_busca (H := Referencia.referencia) (u "CAR") tabela_normalizada)
  = Some [CStr (u "Carla")].
Proof.
  rewrite (proj1 (X22_plain_query_is_literal Referencia.referencia (u "CAR")
                    tabela_normalizada referencia_literal eq_refl)).
  vm_compute. reflexivity.
Defined.

(** X23: an empty cell is searched as the text "nan": for a plain query
    that is not empty and occurs in "nan" (such as "na" or "AN"), the
    free-text filter keeps every row that has a missing value in some
    cell. *)
Theorem X23_missing_cells_match_nan :
  forall (L : Bibliotecas) (q : pystr) (df d : DataFrame) (r : Row) (col : pystr),
    re_literal_law ->
    truthy q = true ->
    contains (lower q) (u "nan") = true ->
    filtro_busca q df = Some d ->
    In r (rows df) -> In (col, CNaN) r ->
    In r (rows d).
Proof.
  intros L q df d r col Hlaw Hq Hnan Hb Hr Hcell.
  assert (Hlatin : forallb (fun c => (c <? 256)%N) q = true).
  { apply forallb_forall. intros c Hc. apply N.ltb_lt.
    assert (Hin : In (lower_cp c) (u "nan"))
      by (apply (contains_incl _ _ Hnan); unfold lower; now apply in_map).
    assert (Hle : (c <= lower_cp c)%N)
      by (unfold lower_cp;
          destruct ((65 <=? c) && (c <=? 90))%N;
          [| destruct ((192 <=? c) && (c <=? 222) && negb (c =? 215))%N]; lia).
    remember (lower_cp c) as x eqn:Ex. clear Ex. vm_compute in Hin.
    destruct Hin as [<- | [<- | [<- | []]]]; lia. }
  pose proof (str_lower_latin1 q Hlatin) as Hlow.
  assert (Hplain : existsb re_special (str_lower q) = false).
  { rewrite Hlow.
    destruct (existsb re_special (lower q)) eqn:E; [| reflexivity].
    apply existsb_exists in E. destruct E as [x [Hx Hsp]].
    pose proof (contains_incl _ _ Hnan x Hx) as Hin.
    vm_compute in Hin.
    destruct Hin as [<- | [<- | [<- | []]]]; vm_compute in Hsp; discriminate. }
  rewrite (filtro_busca_literal L q df Hlaw Hplain) in Hb. injection Hb as <-.
  apply select_In. split; [exact Hr |].
  unfold casa_busca. rewrite Hq. apply existsb_exists.
  exists (col, CNaN). split; [exact Hcell |].
  unfold texto_em. cbn [fst snd astype_str_em astype_str].
  rewrite (str_lower_latin1 (u "nan") eq_refl), Hlow. exact Hnan.
Qed.

Lemma X23_witness :
  In [(u "Status", CStr (u "Aberta")); (u "Obs", CNaN)]
     (rows (select (pred_busca (H := Referencia.referencia) (u "AN")) tabela_obs)).
Proof.
  apply (X23_missing_cells_match_nan Referencia.referencia (u "AN") tabela_obs
           (select (pred_busca (H := Referencia.referencia) (u "AN")) tabela_obs)
           [(u "Status", CStr (u "Aberta")); (u "Obs", CNaN)] (u "Obs")
           referencia_literal).
  - reflexivity.
  - vm_compute. reflexivity.
  - vm_compute. reflexivity.
  - now left.
  - right. now left.
Defined.
